(** * Registration-history lifecycle of the photo routes (routes/photos.js)

    A shallow embedding of the Express handlers of [routes/photos.js]
    (the first router of the file, lines 1-744) over a model of the
    Supabase tables they touch.

    Modelling choices:
    - every table is a list of rows in storage order; a query without an
      ORDER BY returns its rows in that order;
    - uuids, photo ids and user ids are integers; a uuid the store
      generates is one more than the largest uuid of its table;
    - every statement the handlers issue succeeds, except the insert into
      [Airport], which fails with the unique-violation code "23505" when
      the ICAO code is taken (foreign keys are not modelled);
    - S3 (upload and best-effort delete) is outside the store and has no
      effect on it;
    - every write statement that runs appends an entry to a write log, so
      that the order of the writes can be stated;
    - [Math.random()] is the number [k / 2^53] for a draw [0 <= k < 2^53]. *)

From Stdlib Require Import ZArith List String Ascii Bool Lia.
Import ListNotations.
Open Scope string_scope.
Open Scope list_scope.
Open Scope Z_scope.

(** ** JavaScript values of the request body *)

Inductive jsval :=
| JUndefined
| JNull
| JBool (b : bool)
| JNum (z : Z)
| JStr (s : string).

(** JavaScript truthiness ([NaN] is not modelled). *)
Definition truthy (v : jsval) : bool :=
  match v with
  | JUndefined | JNull => false
  | JBool b => b
  | JNum z => negb (z =? 0)
  | JStr s => negb (String.eqb s "")
  end.

(** [v || null] *)
Definition or_null (v : jsval) : jsval := if truthy v then v else JNull.

(** Text fields of a request body: [None] is an absent field. *)
Definition str_truthy (o : option string) : bool :=
  match o with
  | Some s => negb (String.eqb s "")
  | None => false
  end.

(** [x || null] on a text field. *)
Definition str_or_null (o : option string) : option string :=
  if str_truthy o then o else None.

(** [String.prototype.toUpperCase] on ASCII text. *)
Definition upper_ascii (c : ascii) : ascii :=
  let n := nat_of_ascii c in
  if andb (Nat.leb 97 n) (Nat.leb n 122) then ascii_of_nat (n - 32) else c.

Fixpoint toUpperCase (s : string) : string :=
  match s with
  | EmptyString => EmptyString
  | String c s' => String (upper_ascii c) (toUpperCase s')
  end.

(** ** Tables *)

Record Photo := mkPhoto {
  ph_id : Z;
  ph_user_id : Z;
  ph_uuid_rh : option Z;
  ph_airport_code : option string;
  ph_image_url : string;
  ph_taken_at : jsval;
  ph_shutter_speed : jsval;
  ph_iso : jsval;
  ph_aperture : jsval;
  ph_camera_model : jsval;
  ph_focal_length : jsval
}.

Record RegistrationHistory := mkRH {
  rh_uuid : Z;
  rh_uuid_sa : option Z;
  rh_registration : string;
  rh_airline : option string;
  rh_is_current : bool;
  rh_created_at : Z
}.

Record SpecificAircraft := mkSA {
  sa_uuid : Z;
  sa_icao_type : string;
  sa_manufactured_date : option string
}.

Record AircraftType := mkAT {
  at_icao_type : string;
  at_manufacturer : string;
  at_type : string;
  at_variant : string
}.

(** [latitude]/[longitude] keep the submitted text ([parseFloat] is not
    modelled). *)
Record Airport := mkAirport {
  ap_icao_code : string;
  ap_name : string;
  ap_latitude : string;
  ap_longitude : string
}.

(** Write statements, as logged by the store. *)
Inductive Write :=
| WInsertAirport (code : string)
| WInsertSA (uuid : Z)
| WInsertRH (uuid : Z)
| WInsertPhoto (id : Z)
| WUpdatePhoto (id : Z)
| WDeletePhoto (id : Z)
| WDeleteRH (uuid : Z)
| WDeleteSA (uuid : Z).

Record DB := mkDB {
  db_photos : list Photo;
  db_rhs : list RegistrationHistory;
  db_sas : list SpecificAircraft;
  db_types : list AircraftType;
  db_airports : list Airport;
  db_clock : Z;
  db_log : list Write
}.

Record StoreError := mkStoreError { err_code : string; err_message : string }.

(** ** Responses *)

Inductive Body :=
| BError (msg : string)
| BMessage (msg : string)
| BPhoto (p : Photo).

Record Resp := mkResp { status : Z; body : Body }.

(** ** Handlers: state passing with early return

    [inl r] is a response sent before the end of the handler ([return
    res.status(..).json(..)] or a [throw] caught by the handler's
    [catch]). *)

Definition Handler (A : Type) := DB -> (Resp + A) * DB.

Definition ret {A} (a : A) : Handler A := fun st => (inr a, st).

Definition bind {A B} (m : Handler A) (k : A -> Handler B) : Handler B :=
  fun st =>
    match m st with
    | (inl r, st') => (inl r, st')
    | (inr a, st') => k a st'
    end.

Definition halt {A} (r : Resp) : Handler A := fun st => (inl r, st).

Definition run (m : Handler Resp) (st : DB) : Resp * DB :=
  match m st with
  | (inl r, st') => (r, st')
  | (inr r, st') => (r, st')
  end.

Notation "x <- m ;; k" := (bind m (fun x => k))
  (at level 61, m at next level, right associativity).
Notation "m ;;; k" := (bind m (fun _ => k))
  (at level 61, right associativity).

Definition read {A} (f : DB -> A) : Handler A := fun st => (inr (f st), st).

Definition write (w : Write) (f : DB -> DB) : Handler unit :=
  fun st =>
    let st' := f st in
    (inr tt, mkDB (db_photos st') (db_rhs st') (db_sas st') (db_types st')
               (db_airports st') (db_clock st') (db_log st ++ [w])).

(** [.single()]: the one row of the result, an error otherwise. *)
Definition single {A} (l : list A) : option A :=
  match l with
  | [x] => Some x
  | _ => None
  end.

Definition opt_eqb (a b : option Z) : bool :=
  match a, b with
  | Some x, Some y => x =? y
  | None, None => true
  | _, _ => false
  end.

(** ** Store statements *)

Definition set_photos (ps : list Photo) (st : DB) : DB :=
  mkDB ps (db_rhs st) (db_sas st) (db_types st) (db_airports st) (db_clock st) (db_log st).
Definition set_rhs (rs : list RegistrationHistory) (st : DB) : DB :=
  mkDB (db_photos st) rs (db_sas st) (db_types st) (db_airports st) (db_clock st) (db_log st).
Definition set_sas (ss : list SpecificAircraft) (st : DB) : DB :=
  mkDB (db_photos st) (db_rhs st) ss (db_types st) (db_airports st) (db_clock st) (db_log st).

(** [from("Photo").select(..).eq("id", id).eq("user_id", uid).single()] *)
Definition owned_photos (pid uid : Z) (st : DB) : list Photo :=
  filter (fun p => (ph_id p =? pid) && (ph_user_id p =? uid)) (db_photos st).

Definition select_owned_photo (pid uid : Z) : Handler (option Photo) :=
  read (fun st => single (owned_photos pid uid st)).

(** [from("Photo").select("*", {count: "exact", head: true}).eq("uuid_rh", u)] *)
Definition photos_with_rh (u : Z) (ps : list Photo) : list Photo :=
  filter (fun p => opt_eqb (ph_uuid_rh p) (Some u)) ps.

Definition count_photos_with_rh (u : Z) : Handler nat :=
  read (fun st => List.length (photos_with_rh u (db_photos st))).

Definition rhs_with_uuid (u : Z) (rs : list RegistrationHistory) :=
  filter (fun r => rh_uuid r =? u) rs.

Definition rhs_with_sa (s : Z) (rs : list RegistrationHistory) :=
  filter (fun r => opt_eqb (rh_uuid_sa r) (Some s)) rs.

(** [from("RegistrationHistory").select("uuid_sa").eq("uuid_rh", u).single()] *)
Definition select_rh (u : Z) : Handler (option RegistrationHistory) :=
  read (fun st => single (rhs_with_uuid u (db_rhs st))).

(** [from("RegistrationHistory").select("*", {count: "exact", head: true}).eq("uuid_sa", s)] *)
Definition count_rhs_with_sa (s : Z) : Handler nat :=
  read (fun st => List.length (rhs_with_sa s (db_rhs st))).

(** [from("Photo").delete().eq("id", pid)] *)
Definition delete_photo_row (pid : Z) : Handler unit :=
  write (WDeletePhoto pid)
    (fun st => set_photos (filter (fun p => negb (ph_id p =? pid)) (db_photos st)) st).

(** [from("RegistrationHistory").delete().eq("uuid_rh", u)] *)
Definition delete_rh (u : Z) : Handler unit :=
  write (WDeleteRH u)
    (fun st => set_rhs (filter (fun r => negb (rh_uuid r =? u)) (db_rhs st)) st).

(** [from("SpecificAircraft").delete().eq("uuid", s)] *)
Definition delete_sa (s : Z) : Handler unit :=
  write (WDeleteSA s)
    (fun st => set_sas (filter (fun a => negb (sa_uuid a =? s)) (db_sas st)) st).

(** ** Cleanup of an old registration reference

    Step 4 of [router.delete("/:id")] (lines 496-530) and of
    [router.put("/:id")] (lines 696-735): the two routes inline the same
    statements. *)
Definition cleanup_rh (u : Z) : Handler unit :=
  photoCount <- count_photos_with_rh u;;
  if Nat.eqb photoCount 0 then
    rhData <- select_rh u;;
    delete_rh u;;;
    match rhData with
    | Some rh =>
        match rh_uuid_sa rh with
        | Some s =>
            rhCount <- count_rhs_with_sa s;;
            if Nat.eqb rhCount 0 then delete_sa s else ret tt
        | None => ret tt
        end
    | None => ret tt
    end
  else ret tt.

(** ** [router.delete("/:id")] *)
Definition delete_photo (uid pid : Z) : Handler Resp :=
  photo <- select_owned_photo pid uid;;
  match photo with
  | None => halt (mkResp 404 (BError "Photo not found or access denied"))
  | Some p =>
      (* S3 delete: best effort, no effect on the store *)
      delete_photo_row pid;;;
      match ph_uuid_rh p with
      | Some u => cleanup_rh u
      | None => ret tt
      end;;;
      ret (mkResp 200 (BMessage "Photo deleted and cleanup performed successfully"))
  end.

(** ** Inserts and updates *)

Definition set_airports (as_ : list Airport) (st : DB) : DB :=
  mkDB (db_photos st) (db_rhs st) (db_sas st) (db_types st) as_ (db_clock st) (db_log st).
Definition tick (st : DB) : DB :=
  mkDB (db_photos st) (db_rhs st) (db_sas st) (db_types st) (db_airports st)
    (db_clock st + 1) (db_log st).

Definition max_list (l : list Z) : Z := fold_right Z.max 0 l.

Definition fresh_sa_uuid (st : DB) : Z := 1 + max_list (map sa_uuid (db_sas st)).
Definition fresh_rh_uuid (st : DB) : Z := 1 + max_list (map rh_uuid (db_rhs st)).
Definition fresh_photo_id (st : DB) : Z := 1 + max_list (map ph_id (db_photos st)).

Definition airport_dup : StoreError :=
  mkStoreError "23505" "duplicate key value violates unique constraint Airport_pkey".

(** [from("Airport").insert([a])]: the ICAO code is the table's key. *)
Definition insert_airport (a : Airport) : Handler (option StoreError) :=
  taken <- read (fun st =>
             existsb (fun x => String.eqb (ap_icao_code x) (ap_icao_code a)) (db_airports st));;
  if taken then ret (Some airport_dup)
  else
    write (WInsertAirport (ap_icao_code a))
      (fun st => set_airports (db_airports st ++ [a]) st);;;
    ret None.

(** [from("SpecificAircraft").insert([{ icao_type, manufactured_date }]).select().single()] *)
Definition insert_sa (icao_type : string) (manufactured_date : option string)
  : Handler SpecificAircraft :=
  sa <- read (fun st => mkSA (fresh_sa_uuid st) icao_type manufactured_date);;
  write (WInsertSA (sa_uuid sa)) (fun st => set_sas (db_sas st ++ [sa]) st);;;
  ret sa.

(** [from("RegistrationHistory").insert([{ uuid_sa, registration, airline,
    is_current: true }]).select().single()]; [created_at] is the store's
    clock. *)
Definition insert_rh (uuid_sa : Z) (registration : string) (airline : option string)
  : Handler RegistrationHistory :=
  rh <- read (fun st =>
          mkRH (fresh_rh_uuid st) (Some uuid_sa) registration airline true (db_clock st));;
  write (WInsertRH (rh_uuid rh)) (fun st => tick (set_rhs (db_rhs st ++ [rh]) st));;;
  ret rh.

(** [from("RegistrationHistory").select("uuid_rh").eq("registration", reg).limit(1)] *)
Definition rhs_with_registration (reg : string) (rs : list RegistrationHistory) :=
  filter (fun r => String.eqb (rh_registration r) reg) rs.

Definition lookup_registration (reg : string) : Handler (list RegistrationHistory) :=
  read (fun st => firstn 1 (rhs_with_registration reg (db_rhs st))).

Record PhotoFields := mkFields {
  f_taken_at : jsval;
  f_shutter_speed : jsval;
  f_iso : jsval;
  f_aperture : jsval;
  f_camera_model : jsval;
  f_focal_length : jsval
}.

(** [from("Photo").insert([{ user_id, uuid_rh, airport_code, image_url, ... }]).select()] *)
Definition insert_photo (uid : Z) (uuid_rh : option Z) (airport_code : option string)
  (image_url : string) (f : PhotoFields) : Handler Photo :=
  p <- read (fun st =>
         mkPhoto (fresh_photo_id st) uid uuid_rh airport_code image_url
           (f_taken_at f) (f_shutter_speed f) (f_iso f) (f_aperture f)
           (f_camera_model f) (f_focal_length f));;
  write (WInsertPhoto (ph_id p)) (fun st => set_photos (db_photos st ++ [p]) st);;;
  ret p.

(** The [updates] object of [router.put]: an [airport_code] of [None] is
    an [undefined] value, which the client drops from the request; a
    [uuid_rh] of [None] is a key that is not set. *)
Record PhotoUpdate := mkUpdate {
  u_fields : PhotoFields;
  u_airport_code : option string;
  u_uuid_rh : option (option Z)
}.

Definition apply_update (u : PhotoUpdate) (p : Photo) : Photo :=
  let f := u_fields u in
  mkPhoto (ph_id p) (ph_user_id p)
    (match u_uuid_rh u with Some r => r | None => ph_uuid_rh p end)
    (match u_airport_code u with Some c => Some c | None => ph_airport_code p end)
    (ph_image_url p)
    (f_taken_at f) (f_shutter_speed f) (f_iso f) (f_aperture f)
    (f_camera_model f) (f_focal_length f).

(** [from("Photo").update(updates).eq("id", pid).eq("user_id", uid)] *)
Definition update_photo (pid uid : Z) (u : PhotoUpdate) : Handler unit :=
  write (WUpdatePhoto pid)
    (fun st => set_photos
       (map (fun p => if (ph_id p =? pid) && (ph_user_id p =? uid)
                      then apply_update u p else p) (db_photos st)) st).

(** [registration.toUpperCase()]: on an absent field it throws a
    [TypeError], which the handler's [catch] turns into a 500. *)
Definition upper_or_throw (o : option string) : Handler string :=
  match o with
  | Some s => ret (toUpperCase s)
  | None => halt (mkResp 500
              (BError "Cannot read properties of undefined (reading 'toUpperCase')"))
  end.

Definition is_other (o : option string) : bool :=
  match o with Some c => String.eqb c "other" | None => false end.

(** ** [router.post("/")] *)

Record PostReq := mkPostReq {
  pr_registration : option string;
  pr_airport_code : option string;
  pr_fields : PhotoFields;
  pr_aircraft_type_id : option string;
  pr_manufactured_date : option string;
  pr_airline_code : option string;
  pr_uuid_rh : option Z;
  pr_airport_icao_code : option string;
  pr_airport_name : option string;
  pr_airport_latitude : option string;
  pr_airport_longitude : option string;
  pr_has_file : bool
}.

Definition fields_or_null (f : PhotoFields) : PhotoFields :=
  mkFields (or_null (f_taken_at f)) (or_null (f_shutter_speed f)) (or_null (f_iso f))
    (or_null (f_aperture f)) (or_null (f_camera_model f)) (or_null (f_focal_length f)).

Definition airport_fields_present (icao name lat lon : option string) : bool :=
  str_truthy icao && str_truthy name && str_truthy lat && str_truthy lon.

Definition missing_airport_fields : Resp :=
  mkResp 400 (BError "All airport fields are required for 'other' airport.").

Definition unwrap (o : option string) : string :=
  match o with Some s => s | None => "" end.

(** The [airport_code === "other"] block of the POST route (lines 340-365). *)
Definition post_airport (r : PostReq) : Handler (option string) :=
  if is_other (pr_airport_code r) then
    if negb (airport_fields_present (pr_airport_icao_code r) (pr_airport_name r)
               (pr_airport_latitude r) (pr_airport_longitude r))
    then halt missing_airport_fields
    else
      let code := toUpperCase (unwrap (pr_airport_icao_code r)) in
      airportError <- insert_airport (mkAirport code (unwrap (pr_airport_name r))
                        (unwrap (pr_airport_latitude r)) (unwrap (pr_airport_longitude r)));;
      match airportError with
      | Some e => halt (mkResp 500
                    (BError (String.append "Failed to insert airport: " (err_message e))))
      | None => ret (Some code)
      end
  else ret (pr_airport_code r).

Definition registration_not_found : Resp :=
  mkResp 404 (BError "Registration not found. Please provide aircraft details.").

(** Resolution of [uuid_rh] in the POST route (lines 367-421). *)
Definition post_resolve_rh (r : PostReq) (manufactured_date : option string)
  : Handler (option Z) :=
  match pr_uuid_rh r with
  | Some u => ret (Some u)
  | None =>
      if str_truthy (pr_aircraft_type_id r) then
        saData <- insert_sa (unwrap (pr_aircraft_type_id r)) manufactured_date;;
        reg <- upper_or_throw (pr_registration r);;
        rhData <- insert_rh (sa_uuid saData) reg (pr_airline_code r);;
        ret (Some (rh_uuid rhData))
      else
        reg <- upper_or_throw (pr_registration r);;
        rhData <- lookup_registration reg;;
        match rhData with
        | [] => halt registration_not_found
        | rh :: _ => ret (Some (rh_uuid rh))
        end
  end.

(** [image_url] is the S3 URL of the uploaded image (bucket, region, user
    and the random file name). *)
Definition post_photo (uid : Z) (image_url : string) (r : PostReq) : Handler Resp :=
  let fields := fields_or_null (pr_fields r) in
  let manufactured_date := str_or_null (pr_manufactured_date r) in
  if negb (pr_has_file r) then halt (mkResp 400 (BError "Image file is required."))
  else
    airport_code <- post_airport r;;
    uuid_rh <- post_resolve_rh r manufactured_date;;
    data <- insert_photo uid uuid_rh airport_code image_url fields;;
    ret (mkResp 201 (BPhoto data)).

(** ** [router.put("/:id")] *)

Record PutReq := mkPutReq {
  pu_fields : PhotoFields;
  pu_aircraft_type_id : option string;
  pu_manufactured_date : option string;
  pu_airline_code : option string;
  pu_uuid_rh : option Z;
  pu_registration : option string;
  pu_airport_code : option string;
  pu_airport_icao_code : option string;
  pu_airport_name : option string;
  pu_airport_latitude : option string;
  pu_airport_longitude : option string
}.

(** Step 1b (lines 583-620): a duplicate ICAO code is accepted. *)
Definition put_airport (r : PutReq) : Handler (option string) :=
  if is_other (pu_airport_code r) then
    if negb (airport_fields_present (pu_airport_icao_code r) (pu_airport_name r)
               (pu_airport_latitude r) (pu_airport_longitude r))
    then halt missing_airport_fields
    else
      let code := toUpperCase (unwrap (pu_airport_icao_code r)) in
      airportError <- insert_airport (mkAirport code (unwrap (pu_airport_name r))
                        (unwrap (pu_airport_latitude r)) (unwrap (pu_airport_longitude r)));;
      match airportError with
      | Some e =>
          if String.eqb (err_code e) "23505" then ret (Some code)
          else halt (mkResp 500
                 (BError (String.append "Failed to insert airport: " (err_message e))))
      | None => ret (Some code)
      end
  else ret (pu_airport_code r).

(** Step 2 (lines 622-671): the new registration reference. *)
Definition put_resolve_rh (r : PutReq) (old_uuid_rh : option Z) : Handler (option Z) :=
  match pu_uuid_rh r with
  | Some n =>
      (* Scenario A; a reference equal to the old one changes nothing *)
      if negb (opt_eqb (Some n) old_uuid_rh) then ret (Some n) else ret old_uuid_rh
  | None =>
      if str_truthy (pu_registration r) then
        let reg := toUpperCase (unwrap (pu_registration r)) in
        if str_truthy (pu_aircraft_type_id r) then
          saData <- insert_sa (unwrap (pu_aircraft_type_id r))
                      (str_or_null (pu_manufactured_date r));;
          rhData <- insert_rh (sa_uuid saData) reg (str_or_null (pu_airline_code r));;
          ret (Some (rh_uuid rhData))
        else
          rhData <- lookup_registration reg;;
          match rhData with
          | rh :: _ => ret (Some (rh_uuid rh))
          | [] => ret old_uuid_rh
          end
      else ret old_uuid_rh
  end.

Definition put_updates (r : PutReq) (final_airport_code : option string)
  (old_uuid_rh final_uuid_rh : option Z) : PhotoUpdate :=
  mkUpdate (fields_or_null (pu_fields r)) final_airport_code
    (if negb (opt_eqb final_uuid_rh old_uuid_rh) then Some final_uuid_rh else None).

Definition put_photo (uid pid : Z) (r : PutReq) : Handler Resp :=
  currentPhoto <- select_owned_photo pid uid;;
  match currentPhoto with
  | None => halt (mkResp 404 (BError "Photo not found or unauthorized"))
  | Some cp =>
      let old_uuid_rh := ph_uuid_rh cp in
      final_airport_code <- put_airport r;;
      final_uuid_rh <- put_resolve_rh r old_uuid_rh;;
      update_photo pid uid (put_updates r final_airport_code old_uuid_rh final_uuid_rh);;;
      (if negb (opt_eqb final_uuid_rh old_uuid_rh) then
         match old_uuid_rh with
         | Some o => cleanup_rh o
         | None => ret tt
         end
       else ret tt);;;
      ret (mkResp 200 (BMessage "Photo updated successfully"))
  end.

(** ** Listing routes: [applyPhotoFilters], [/my-photos], [/my-photos/random] *)

(** A photo with the rows [BASE_SELECT] embeds: [Airport] (left join),
    [RegistrationHistory!inner], [SpecificAircraft!inner],
    [AircraftType!inner]. *)
Record PhotoRow := mkRow {
  row_photo : Photo;
  row_airport : option Airport;
  row_rh : RegistrationHistory;
  row_sa : SpecificAircraft;
  row_type : AircraftType
}.

Definition join_rh_sa (st : DB) (p : Photo)
  : option (RegistrationHistory * SpecificAircraft) :=
  match ph_uuid_rh p with
  | None => None
  | Some u =>
      match find (fun r => rh_uuid r =? u) (db_rhs st) with
      | None => None
      | Some rh =>
          match rh_uuid_sa rh with
          | None => None
          | Some s =>
              match find (fun a => sa_uuid a =? s) (db_sas st) with
              | None => None
              | Some sa => Some (rh, sa)
              end
          end
      end
  end.

Definition join_base (st : DB) (p : Photo) : option PhotoRow :=
  match join_rh_sa st p with
  | None => None
  | Some (rh, sa) =>
      match find (fun t => String.eqb (at_icao_type t) (sa_icao_type sa)) (db_types st) with
      | None => None
      | Some t =>
          let ap := match ph_airport_code p with
                    | Some c => find (fun a => String.eqb (ap_icao_code a) c) (db_airports st)
                    | None => None
                    end in
          Some (mkRow p ap rh sa t)
      end
  end.

Fixpoint is_prefix (p s : string) : bool :=
  match p, s with
  | EmptyString, _ => true
  | String a p', String b s' => Ascii.eqb a b && is_prefix p' s'
  | String _ _, EmptyString => false
  end.

Fixpoint contains (p s : string) : bool :=
  match s with
  | EmptyString => is_prefix p s
  | String _ s' => is_prefix p s || contains p s'
  end.

(** [ilike(col, "%search%")], with [%] and [_] inside [search] taken
    literally. *)
Definition ilike_contains (search col : string) : bool :=
  contains (toUpperCase search) (toUpperCase col).

Record FilterParams := mkFilter {
  fp_userId : Z;
  fp_search : string;
  fp_filterArray : list string
}.

(** [applyPhotoFilters] on a photo with its embedded registration and
    airframe. *)
Definition photo_filter (fp : FilterParams) (p : Photo) (rh : RegistrationHistory)
  (sa : SpecificAircraft) : bool :=
  (ph_user_id p =? fp_userId fp)
  && (if String.eqb (fp_search fp) "" then true
      else ilike_contains (fp_search fp) (rh_registration rh))
  && (match fp_filterArray fp with
      | [] => true
      | arr => existsb (String.eqb (sa_icao_type sa)) arr
      end).

Definition base_rows (fp : FilterParams) (st : DB) : list PhotoRow :=
  flat_map (fun p =>
              match join_base st p with
              | Some row => if photo_filter fp p (row_rh row) (row_sa row) then [row] else []
              | None => []
              end) (db_photos st).

(** The count query of the random route embeds only
    [RegistrationHistory!inner(SpecificAircraft!inner(icao_type))]. *)
Definition count_rows (fp : FilterParams) (st : DB) : Z :=
  Z.of_nat (List.length
    (filter (fun p =>
               match join_rh_sa st p with
               | Some (rh, sa) => photo_filter fp p rh sa
               | None => false
               end) (db_photos st))).

(** [.range(from, to)] *)
Definition range {A} (from to : Z) (l : list A) : list A :=
  firstn (Z.to_nat (to - from + 1)) (skipn (Z.to_nat from) l).

(** [parseInt(x) || d], with [None] for an absent or non-numeric [x]. *)
Definition int_or (d : Z) (o : option Z) : Z :=
  match o with
  | Some z => if z =? 0 then d else z
  | None => d
  end.

Section Listing.

(** The store's order on the [taken_at] column, descending ([x] is listed
    before [y]). *)
Variable taken_before : jsval -> jsval -> bool.

Fixpoint insert_by (x : PhotoRow) (l : list PhotoRow) : list PhotoRow :=
  match l with
  | [] => [x]
  | y :: l' =>
      if taken_before (ph_taken_at (row_photo x)) (ph_taken_at (row_photo y))
      then x :: l else y :: insert_by x l'
  end.

Fixpoint sort_rows (l : list PhotoRow) : list PhotoRow :=
  match l with
  | [] => []
  | x :: l' => insert_by x (sort_rows l')
  end.

Record MyPhotosResp := mkMyPhotos {
  mp_data : list PhotoRow;
  mp_page : Z;
  mp_limit : Z;
  mp_total : Z;
  mp_totalPages : Z
}.

(** [router.get("/my-photos")] *)
Definition my_photos (uid : Z) (page_q limit_q : option Z) (search : string)
  (aircraftTypeFilter : list string) (st : DB) : MyPhotosResp :=
  let page := int_or 1 page_q in
  let limit := int_or 9 limit_q in
  let rows := sort_rows (base_rows (mkFilter uid search aircraftTypeFilter) st) in
  let from := (page - 1) * limit in
  let to := from + limit - 1 in
  let count := Z.of_nat (List.length rows) in
  mkMyPhotos (range from to rows) page limit count (- ((- count) / limit)).

End Listing.

Record RandomResp := mkRandom {
  rr_data : list PhotoRow;
  rr_total : Z;
  rr_limit : Z;
  rr_offset : option Z
}.

(** [Math.floor(Math.random() * (count - limit))] for [Math.random() = k / 2^53]. *)
Definition random_offset (count limit k : Z) : Z :=
  if limit <? count then (k * (count - limit)) / 2 ^ 53 else 0.

(** [router.get("/my-photos/random")]; [k] is the draw of [Math.random()].
    The response for [count === 0] carries no offset and fetches no page. *)
Definition my_photos_random (uid : Z) (search : string) (aircraftTypeFilter : list string)
  (k : Z) (st : DB) : RandomResp :=
  let limit := 5 in
  let fp := mkFilter uid search aircraftTypeFilter in
  let count := count_rows fp st in
  if count =? 0 then mkRandom [] 0 limit None
  else
    let randomOffset := random_offset count limit k in
    mkRandom (range randomOffset (randomOffset + limit - 1) (base_rows fp st))
      count limit (Some randomOffset).

(** ** S3 key of a photo: [router.post("/")] and [router.delete("/:id")] *)

(** [s.split(sep)] for a non-empty [sep]: the first occurrence of [sep],
    with the text before it and the text after it. *)
Fixpoint drop (n : nat) (s : string) : string :=
  match n, s with
  | O, _ => s
  | S n', String _ s' => drop n' s'
  | S _, EmptyString => EmptyString
  end.

Fixpoint index_split (sep s : string) : option (string * string) :=
  match s with
  | EmptyString => None
  | String c s' =>
      if is_prefix sep s then Some (EmptyString, drop (String.length sep) s)
      else match index_split sep s' with
           | Some (b, a) => Some (String c b, a)
           | None => None
           end
  end.

(** Every piece is shorter than the text it comes from, so [length s + 1]
    rounds suffice. *)
Fixpoint split_fuel (n : nat) (sep s : string) : list string :=
  match n with
  | O => [s]
  | S n' =>
      match index_split sep s with
      | Some (b, a) => b :: split_fuel n' sep a
      | None => [s]
      end
  end.

Definition js_split (sep s : string) : list string :=
  split_fuel (S (String.length s)) sep s.

(** The S3 key of the upload (line 326): [photos/${req.user.id}/${fileName}]. *)
Definition upload_key (user_id fileName : string) : string :=
  String.append "photos/" (String.append user_id (String.append "/" fileName)).

(** The stored [image_url] (line 335). *)
Definition image_url_of (bucket region user_id fileName : string) : string :=
  String.append "https://" (String.append bucket (String.append ".s3."
    (String.append region (String.append ".amazonaws.com/" (upload_key user_id fileName))))).

(** The key the delete route removes from S3 (lines 469-478); [None]: no
    S3 delete is issued. *)
Definition delete_key (image_url : string) : option string :=
  if String.eqb image_url "" then None
  else match js_split ".com/" image_url with
       | _ :: key :: _ => Some key
       | _ => None
       end.

(** ** Auxiliary definitions for the statements *)

Definition is_insert (w : Write) : bool :=
  match w with
  | WInsertAirport _ | WInsertSA _ | WInsertRH _ | WInsertPhoto _ => true
  | _ => false
  end.

(** [st2] differs from [st] by inserted registrations, airframes and
    airports only. *)
Definition grows (st st2 : DB) : Prop :=
  db_photos st2 = db_photos st /\
  (exists nr, db_rhs st2 = db_rhs st ++ nr) /\
  (exists ns, db_sas st2 = db_sas st ++ ns) /\
  (exists ws, db_log st2 = db_log st ++ ws /\ forallb is_insert ws = true) /\
  (NoDup (map rh_uuid (db_rhs st)) -> NoDup (map rh_uuid (db_rhs st2))).

Definition upd_row (pid uid : Z) (u : PhotoUpdate) (p : Photo) : Photo :=
  if (ph_id p =? pid) && (ph_user_id p =? uid) then apply_update u p else p.

Ltac split_matches :=
  repeat (cbn; match goal with
    |- context [match ?c with _ => _ end] =>
      lazymatch c with
      | context [match _ with _ => _ end] => fail
      | _ => destruct c
      end
    end).

Definition spec_most_recent_rh (reg : string) (rs : list RegistrationHistory) : option Z :=
  match rhs_with_registration reg rs with
  | [] => None
  | r :: rest =>
      Some (rh_uuid (fold_left (fun best x =>
                       if rh_created_at best <? rh_created_at x then x else best) rest r))
  end.

Definition no_fields : PhotoFields :=
  mkFields JUndefined JUndefined JUndefined JUndefined JUndefined JUndefined.

Definition two_rh_db : DB :=
  mkDB [] [mkRH 1 (Some 1) "N12345" None true 1; mkRH 2 (Some 2) "N12345" None true 5]
    [mkSA 1 "B738" None; mkSA 2 "A320" None] [] [] 6 [].

Definition lookup_req : PostReq :=
  mkPostReq (Some "n12345") (Some "KSFO") no_fields None None None None
    None None None None true.

Definition six_photos_db : DB :=
  mkDB (map (fun i => mkPhoto i 1 (Some 1) None "img" JUndefined JUndefined JUndefined
                        JUndefined JUndefined JUndefined) [1; 2; 3; 4; 5; 6])
    [mkRH 1 (Some 1) "N12345" None true 1] [mkSA 1 "B738" None]
    [mkAT "B738" "Boeing" "737" "800"] [] 2 [].

Definition own_photos (uid : Z) (ps : list Photo) : list Photo :=
  filter (fun p => ph_user_id p =? uid) ps.

(** Concrete stores and requests, used to instantiate the properties. *)

Definition photo_of (id uid : Z) (u : option Z) : Photo :=
  mkPhoto id uid u (Some "KSFO") "img" JUndefined JUndefined JUndefined
    JUndefined JUndefined JUndefined.

Definition photo10 : Photo := photo_of 10 1 (Some 1).

Definition rh_n1 : RegistrationHistory := mkRH 1 (Some 1) "N1" None true 1.

Definition demo_db : DB :=
  mkDB [photo10; photo_of 11 2 (Some 2)]
    [rh_n1; mkRH 2 (Some 2) "N2" None true 2]
    [mkSA 1 "B738" None; mkSA 2 "A320" None]
    [mkAT "B738" "Boeing" "737" "800"; mkAT "A320" "Airbus" "A320" "200"]
    [mkAirport "KSFO" "San Francisco" "37.6" "-122.4"; mkAirport "KXYZ" "Test Field" "1.0" "2.0"]
    3 [].

Definition put_req (f : PhotoFields) (u : option Z) (reg : option string) : PutReq :=
  mkPutReq f None None None u reg (Some "KSFO") None None None None.

Definition some_fields : PhotoFields :=
  mkFields (JStr "2024-01-01") (JStr "1/250") (JNum 100) (JStr "") JUndefined JNull.

Definition post_req_type : PostReq :=
  mkPostReq (Some "n77") (Some "KSFO") no_fields (Some "B738") (Some "2001-01-01")
    (Some "UAL") None None None None None true.

Definition post_req_other (icao : string) : PostReq :=
  mkPostReq (Some "n77") (Some "other") no_fields (Some "B738") None None None
    (Some icao) (Some "Test Field") (Some "1.0") (Some "2.0") true.

Definition after_update (pid uid : Z) (u : PhotoUpdate) (st : DB) : DB :=
  mkDB (map (upd_row pid uid u) (db_photos st)) (db_rhs st) (db_sas st) (db_types st)
    (db_airports st) (db_clock st) (db_log st ++ [WUpdatePhoto pid]).

Definition after_cleanup (old fin : option Z) (st : DB) : DB :=
  if negb (opt_eqb fin old) then
    match old with Some o => snd (cleanup_rh o st) | None => st end
  else st.

Definition refs_ok_lists (ps : list Photo) (rs : list RegistrationHistory)
  (ss : list SpecificAircraft) : Prop :=
  (forall p, In p ps -> forall u, ph_uuid_rh p = Some u ->
     exists r, In r rs /\ rh_uuid r = u) /\
  (forall r, In r rs -> forall s, rh_uuid_sa r = Some s ->
     exists a, In a ss /\ sa_uuid a = s).

Definition refs_ok (st : DB) : Prop :=
  refs_ok_lists (db_photos st) (db_rhs st) (db_sas st).

Definition refs_okb (st : DB) : bool :=
  forallb (fun p => match ph_uuid_rh p with
                    | Some u => existsb (fun r => rh_uuid r =? u) (db_rhs st)
                    | None => true
                    end) (db_photos st) &&
  forallb (fun r => match rh_uuid_sa r with
                    | Some s => existsb (fun a => sa_uuid a =? s) (db_sas st)
                    | None => true
                    end) (db_rhs st).

Definition put_req_other (icao : string) : PutReq :=
  mkPutReq no_fields None None None None None (Some "other") (Some icao)
    (Some "Test Field") (Some "1.0") (Some "2.0").

Definition post_req_unknown_reg : PostReq :=
  mkPostReq (Some "zzz") (Some "other") no_fields None None None None
    (Some "kabc") (Some "Test Field") (Some "1.0") (Some "2.0") true.

Definition post_req_type_only : PostReq :=
  mkPostReq None (Some "KSFO") no_fields (Some "B738") None None None
    None None None None true.

(** * Properties *)

Lemma filter_nil_iff {A} (f : A -> bool) l :
  filter f l = [] <-> (forall x, In x l -> f x = false).
Proof.
  induction l as [|y l IH]; cbn.
  - split; [intros _ x []|reflexivity].
  - destruct (f y) eqn:E.
    + split; [discriminate|]. intros H. rewrite H in E; [discriminate|left; reflexivity].
    + rewrite IH. split.
      * intros H x [<-|Hx]; auto.
      * intros H x Hx. auto.
Qed.

Lemma opt_eqb_some o u : opt_eqb o (Some u) = true <-> o = Some u.
Proof.
  destruct o; cbn; [rewrite Z.eqb_eq; split; congruence|split; discriminate].
Qed.

Lemma no_ref_iff {A} (g : A -> option Z) u l :
  filter (fun x => opt_eqb (g x) (Some u)) l = [] <->
  ~ (exists x, In x l /\ g x = Some u).
Proof.
  rewrite filter_nil_iff. split.
  - intros H [x [Hx Hg]]. specialize (H x Hx). apply opt_eqb_some in Hg. congruence.
  - intros H x Hx. destruct (opt_eqb (g x) (Some u)) eqn:E; auto.
    exfalso. apply H. exists x. split; auto. apply opt_eqb_some; auto.
Qed.

Lemma rhs_with_uuid_unique rs rhA :
  NoDup (map rh_uuid rs) -> In rhA rs -> rhs_with_uuid (rh_uuid rhA) rs = [rhA].
Proof.
  unfold rhs_with_uuid. induction rs as [|r rs IH]; cbn; [intros _ []|].
  intros Hnd Hin. inversion Hnd as [|? ? Hnot Hnd']; subst.
  destruct Hin as [<-|Hin].
  - rewrite Z.eqb_refl. f_equal. apply filter_nil_iff. intros x Hx.
    apply Z.eqb_neq. intros Heq. apply Hnot. rewrite <- Heq. apply in_map; auto.
  - destruct (rh_uuid r =? rh_uuid rhA) eqn:E.
    + apply Z.eqb_eq in E. exfalso. apply Hnot. rewrite E. apply in_map; auto.
    + auto.
Qed.

Lemma not_in_filter_key {A} (k : A -> Z) u l :
  ~ (exists x, In x (filter (fun x => negb (k x =? u)) l) /\ k x = u).
Proof.
  intros [x [Hx Hk]]. apply filter_In in Hx. destruct Hx as [_ Hx].
  rewrite Hk, Z.eqb_refl in Hx. discriminate.
Qed.

(** C1. Deleting an owned photo whose registration is [rhA]: afterwards
    [rhA] is gone exactly when no photo refers to it; when it is gone, the
    airframe of [rhA] is gone exactly when no registration refers to it;
    when a photo still refers to [rhA], no registration and no airframe is
    deleted. *)
Theorem delete_photo_cleanup (st : DB) (uid pid : Z) (p : Photo) (rhA : RegistrationHistory) :
  owned_photos pid uid st = [p] ->
  ph_uuid_rh p = Some (rh_uuid rhA) ->
  In rhA (db_rhs st) ->
  NoDup (map rh_uuid (db_rhs st)) ->
  let st' := snd (run (delete_photo uid pid) st) in
  ((~ exists r, In r (db_rhs st') /\ rh_uuid r = rh_uuid rhA) <->
   (~ exists q, In q (db_photos st') /\ ph_uuid_rh q = Some (rh_uuid rhA))) /\
  (forall s, rh_uuid_sa rhA = Some s ->
     (exists a, In a (db_sas st) /\ sa_uuid a = s) ->
     (~ exists q, In q (db_photos st') /\ ph_uuid_rh q = Some (rh_uuid rhA)) ->
     ((~ exists a, In a (db_sas st') /\ sa_uuid a = s) <->
      (~ exists r, In r (db_rhs st') /\ rh_uuid_sa r = Some s))) /\
  ((exists q, In q (db_photos st') /\ ph_uuid_rh q = Some (rh_uuid rhA)) ->
     db_rhs st' = db_rhs st /\ db_sas st' = db_sas st).
Proof.
  intros Hown Href Hin Hnd st'. subst st'.
  unfold run, delete_photo, bind, select_owned_photo, read. rewrite Hown. cbn [single].
  rewrite Href. unfold delete_photo_row, write, cleanup_rh, bind, count_photos_with_rh, read.
  cbn -[filter].
  set (ps := filter (fun q => negb (ph_id q =? pid)) (db_photos st)).
  destruct (Nat.eqb (List.length (photos_with_rh (rh_uuid rhA) ps)) 0) eqn:E0.
  - apply Nat.eqb_eq, length_zero_iff_nil in E0.
    pose proof E0 as Hnoref. unfold photos_with_rh in Hnoref.
    apply (no_ref_iff ph_uuid_rh) in Hnoref.
    unfold select_rh, read. cbn -[filter].
    rewrite rhs_with_uuid_unique by assumption. cbn [single].
    unfold delete_rh, write. cbn -[filter].
    set (rs := filter (fun r => negb (rh_uuid r =? rh_uuid rhA)) (db_rhs st)).
    destruct (rh_uuid_sa rhA) as [s|] eqn:Esa.
    + unfold count_rhs_with_sa, read. cbn -[filter].
      destruct (Nat.eqb (List.length (rhs_with_sa s rs)) 0) eqn:E1.
      * apply Nat.eqb_eq, length_zero_iff_nil in E1.
        unfold rhs_with_sa in E1. apply (no_ref_iff rh_uuid_sa) in E1.
        unfold delete_sa, write. cbn -[filter].
        split; [split; intros _; [exact Hnoref | apply not_in_filter_key]|].
        split; [|intros Hx; contradiction].
        intros s' Hs' _ _. injection Hs' as <-.
        split; intros _; [exact E1 | apply not_in_filter_key].
      * cbn -[filter].
        split; [split; intros _; [exact Hnoref | apply not_in_filter_key]|].
        split; [|intros Hx; contradiction].
        intros s' Hs' [a [Ha Has]] _. injection Hs' as <-.
        assert (Hr : ~ rhs_with_sa s rs = []) by (intros Hn; rewrite Hn in E1; discriminate).
        unfold rhs_with_sa in Hr. rewrite (no_ref_iff rh_uuid_sa) in Hr.
        split; intros H; exfalso; [apply H; eauto|].
        apply Hr. exact H.
    + cbn -[filter].
      split; [split; intros _; [exact Hnoref | apply not_in_filter_key]|].
      split; [intros s Hs; discriminate|intros Hx; contradiction].
  - cbn -[filter].
    assert (Hr : photos_with_rh (rh_uuid rhA) ps <> []).
    { intros Hn. rewrite Hn in E0. discriminate. }
    unfold photos_with_rh in Hr. rewrite (no_ref_iff ph_uuid_rh) in Hr.
    split; [|split].
    + split; intros H; exfalso.
      * apply H. eauto.
      * apply Hr. exact H.
    + intros s _ _ H. exfalso. apply Hr. exact H.
    + intros _. split; reflexivity.
Qed.

Lemma grows_refl st : grows st st.
Proof.
  repeat split; try (exists []; rewrite app_nil_r; auto); auto.
Qed.

Lemma grows_trans a b c : grows a b -> grows b c -> grows a c.
Proof.
  intros (P1 & [r1 R1] & [s1 S1] & [w1 [L1 F1]] & N1) (P2 & [r2 R2] & [s2 S2] & [w2 [L2 F2]] & N2).
  repeat split.
  - congruence.
  - exists (r1 ++ r2). rewrite R2, R1, app_assoc. reflexivity.
  - exists (s1 ++ s2). rewrite S2, S1, app_assoc. reflexivity.
  - exists (w1 ++ w2). rewrite L2, L1, app_assoc. split; [reflexivity|].
    rewrite forallb_app, F1, F2. reflexivity.
  - auto.
Qed.

Lemma max_list_ge l x : In x l -> x <= max_list l.
Proof.
  induction l as [|y l IH]; cbn; [intros []|].
  intros [<-|H]; [apply Z.le_max_l|]. specialize (IH H).
  eapply Z.le_trans; [exact IH|apply Z.le_max_r].
Qed.

Lemma fresh_rh_not_in st : ~ In (fresh_rh_uuid st) (map rh_uuid (db_rhs st)).
Proof.
  unfold fresh_rh_uuid. intros H. apply max_list_ge in H. lia.
Qed.

Lemma fresh_sa_not_in st : ~ In (fresh_sa_uuid st) (map sa_uuid (db_sas st)).
Proof.
  unfold fresh_sa_uuid. intros H. apply max_list_ge in H. lia.
Qed.

Lemma NoDup_snoc {A} (l : list A) x : NoDup l -> ~ In x l -> NoDup (l ++ [x]).
Proof.
  intros Hnd Hx. apply NoDup_app; auto.
  - constructor; [intros []|constructor].
  - intros y Hy [<-|[]]. contradiction.
Qed.

Lemma insert_airport_grows a st : grows st (snd (insert_airport a st)).
Proof.
  unfold insert_airport, bind, read, write, ret. cbn.
  destruct (existsb _ _); cbn; [apply grows_refl|].
  repeat split; cbn; auto.
  - exists []. rewrite app_nil_r. reflexivity.
  - exists []. rewrite app_nil_r. reflexivity.
  - exists [WInsertAirport (ap_icao_code a)]. auto.
Qed.

Lemma insert_sa_grows t d st : grows st (snd (insert_sa t d st)).
Proof.
  unfold insert_sa, bind, read, write, ret. cbn.
  repeat split; cbn; auto.
  - exists []. rewrite app_nil_r. reflexivity.
  - eexists. reflexivity.
  - eexists. split; [reflexivity|reflexivity].
Qed.

Lemma insert_rh_grows s reg al st : grows st (snd (insert_rh s reg al st)).
Proof.
  unfold insert_rh, bind, read, write, ret. cbn.
  repeat split; cbn; auto.
  - eexists. reflexivity.
  - exists []. rewrite app_nil_r. reflexivity.
  - eexists. split; [reflexivity|reflexivity].
  - intros Hnd. rewrite map_app. apply NoDup_snoc; auto. apply fresh_rh_not_in.
Qed.

Lemma insert_rh_result s reg al st :
  exists rh, fst (insert_rh s reg al st) = inr rh /\ In rh (db_rhs (snd (insert_rh s reg al st))).
Proof.
  unfold insert_rh, bind, read, write, ret. cbn. eexists. split; [reflexivity|].
  apply in_or_app. right. left. reflexivity.
Qed.

Lemma put_airport_grows r st : grows st (snd (put_airport r st)).
Proof.
  unfold put_airport.
  destruct (is_other (pu_airport_code r)); [|apply grows_refl].
  destruct (negb _); [apply grows_refl|].
  unfold bind.
  pose proof (insert_airport_grows
    (mkAirport (toUpperCase (unwrap (pu_airport_icao_code r))) (unwrap (pu_airport_name r))
       (unwrap (pu_airport_latitude r)) (unwrap (pu_airport_longitude r))) st) as G.
  destruct (insert_airport _ st) as [[e|[e|]] st1] eqn:E; cbn in *; auto.
  destruct (String.eqb _ _); cbn; auto.
Qed.

Lemma put_resolve_spec r old st :
  exists fin,
    fst (put_resolve_rh r old st) = inr fin /\
    grows st (snd (put_resolve_rh r old st)) /\
    (fin = old \/ pu_uuid_rh r = fin \/
     exists rh, In rh (db_rhs (snd (put_resolve_rh r old st))) /\ fin = Some (rh_uuid rh)).
Proof.
  unfold put_resolve_rh.
  destruct (pu_uuid_rh r) as [n|] eqn:En.
  - destruct (negb _); cbn; eexists; (split; [reflexivity|split; [apply grows_refl|]]); auto.
  - destruct (str_truthy (pu_registration r)); [|cbn; eexists; split; [reflexivity|split; [apply grows_refl|auto]]].
    destruct (str_truthy (pu_aircraft_type_id r)).
    + set (reg := toUpperCase (unwrap (pu_registration r))).
      set (t := unwrap (pu_aircraft_type_id r)).
      set (d := str_or_null (pu_manufactured_date r)).
      set (al := str_or_null (pu_airline_code r)).
      pose proof (insert_sa_grows t d st) as G1.
      destruct (insert_sa t d st) as [[e|sa] st1] eqn:E1.
      { unfold insert_sa, bind, read, write, ret in E1. discriminate. }
      cbn [snd] in G1.
      pose proof (insert_rh_grows (sa_uuid sa) reg al st1) as G2.
      destruct (insert_rh_result (sa_uuid sa) reg al st1) as [rh [R1 R2]].
      destruct (insert_rh (sa_uuid sa) reg al st1) as [[e|rh'] st2] eqn:E2;
        cbn [fst snd] in R1, R2, G2; [discriminate|].
      injection R1 as <-.
      unfold bind. rewrite E1, E2. unfold ret. cbn [fst snd].
      eexists. split; [reflexivity|]. split; [eapply grows_trans; eauto|].
      right. right. eauto.
    + unfold bind, lookup_registration, read. cbn -[rhs_with_registration].
      destruct (rhs_with_registration _ (db_rhs st)) as [|rh rest] eqn:Ef; cbn [firstn].
      * eexists. split; [reflexivity|]. split; [apply grows_refl|auto].
      * eexists. split; [reflexivity|]. split; [apply grows_refl|].
        right. right. exists rh. split; auto. cbn.
        assert (Hin : In rh (rhs_with_registration (toUpperCase (unwrap (pu_registration r))) (db_rhs st)))
          by (rewrite Ef; left; reflexivity).
        unfold rhs_with_registration in Hin. apply filter_In in Hin. tauto.
Qed.

Lemma cleanup_rh_spec st rhA :
  In rhA (db_rhs st) -> NoDup (map rh_uuid (db_rhs st)) ->
  photos_with_rh (rh_uuid rhA) (db_photos st) = [] ->
  let st' := snd (cleanup_rh (rh_uuid rhA) st) in
  db_photos st' = db_photos st /\
  db_rhs st' = filter (fun x => negb (rh_uuid x =? rh_uuid rhA)) (db_rhs st) /\
  ((exists s, rh_uuid_sa rhA = Some s /\ rhs_with_sa s (db_rhs st') = [] /\
      db_sas st' = filter (fun a => negb (sa_uuid a =? s)) (db_sas st) /\
      db_log st' = db_log st ++ [WDeleteRH (rh_uuid rhA); WDeleteSA s]) \/
   ((forall s, rh_uuid_sa rhA = Some s -> rhs_with_sa s (db_rhs st') <> []) /\
      db_sas st' = db_sas st /\ db_log st' = db_log st ++ [WDeleteRH (rh_uuid rhA)])).
Proof.
  intros Hin Hnd Hnone st'. subst st'.
  unfold cleanup_rh, bind, count_photos_with_rh, read. cbn [fst snd].
  rewrite Hnone. cbn [List.length Nat.eqb].
  unfold select_rh, read. rewrite rhs_with_uuid_unique by assumption. cbn [single].
  unfold delete_rh, write. cbn [fst snd db_rhs db_photos db_sas db_log set_rhs].
  set (rs := filter (fun x => negb (rh_uuid x =? rh_uuid rhA)) (db_rhs st)).
  destruct (rh_uuid_sa rhA) as [s|] eqn:Esa.
  - unfold count_rhs_with_sa, read. cbn [fst snd db_rhs].
    destruct (Nat.eqb (List.length (rhs_with_sa s rs)) 0) eqn:E1.
    + apply Nat.eqb_eq, length_zero_iff_nil in E1.
      unfold delete_sa, write. cbn. split; [reflexivity|]. split; [reflexivity|].
      left. exists s. repeat split; auto. rewrite <- app_assoc. reflexivity.
    + unfold ret. cbn. split; [reflexivity|]. split; [reflexivity|].
      right. repeat split; auto.
      intros s' Hs' Hn. injection Hs' as <-. fold (rhs_with_sa s rs) in Hn. rewrite Hn in E1. discriminate.
  - unfold ret. cbn. split; [reflexivity|]. split; [reflexivity|].
    right. repeat split; auto. intros s' Hs'. discriminate.
Qed.

Lemma in_map_upd pid uid u ps q :
  In q (map (upd_row pid uid u) ps) -> ph_id q = pid -> ph_user_id q = uid ->
  exists q0, In q0 ps /\ ph_id q0 = pid /\ ph_user_id q0 = uid /\ q = apply_update u q0.
Proof.
  intros Hq Hid Hu. apply in_map_iff in Hq. destruct Hq as [q0 [Heq Hin]].
  unfold upd_row in Heq.
  destruct ((ph_id q0 =? pid) && (ph_user_id q0 =? uid)) eqn:E.
  - apply andb_true_iff in E. destruct E as [E1 E2]. apply Z.eqb_eq in E1, E2.
    exists q0. auto.
  - subst q. rewrite Hid, Hu, !Z.eqb_refl in E. discriminate.
Qed.

Lemma owned_unique pid uid st p q :
  owned_photos pid uid st = [p] -> In q (db_photos st) -> ph_id q = pid ->
  ph_user_id q = uid -> q = p.
Proof.
  intros Hown Hin Hid Hu.
  assert (H : In q (owned_photos pid uid st)).
  { unfold owned_photos. apply filter_In. rewrite Hid, Hu, !Z.eqb_refl. auto. }
  rewrite Hown in H. destruct H as [<-|[]]. reflexivity.
Qed.

Lemma no_ref_after_update pid uid u st p A :
  owned_photos pid uid st = [p] ->
  photos_with_rh A (db_photos st) = [p] ->
  (exists r, u_uuid_rh u = Some r /\ r <> Some A) ->
  photos_with_rh A (map (upd_row pid uid u) (db_photos st)) = [].
Proof.
  intros Hown Href [r [Hr Hne]].
  unfold photos_with_rh. apply (no_ref_iff ph_uuid_rh).
  intros [q [Hq Hqa]]. apply in_map_iff in Hq. destruct Hq as [q0 [Heq Hin]].
  unfold upd_row in Heq.
  destruct ((ph_id q0 =? pid) && (ph_user_id q0 =? uid)) eqn:E.
  - subst q. unfold apply_update in Hqa. rewrite Hr in Hqa. cbn in Hqa. congruence.
  - subst q. assert (Hq0 : In q0 (photos_with_rh A (db_photos st))).
    { unfold photos_with_rh. apply filter_In. split; auto. apply opt_eqb_some. auto. }
    rewrite Href in Hq0. destruct Hq0 as [->|[]].
    assert (Hp : In q0 (owned_photos pid uid st)) by (rewrite Hown; left; reflexivity).
    unfold owned_photos in Hp. apply filter_In in Hp. destruct Hp as [_ Hp].
    rewrite Hp in E. discriminate.
Qed.

Lemma cleanup_rh_ok u st : fst (cleanup_rh u st) = inr tt.
Proof.
  unfold cleanup_rh, bind, count_photos_with_rh, read, select_rh, delete_rh, write, ret,
    count_rhs_with_sa, delete_sa.
  repeat (cbn; match goal with |- context [match ?c with _ => _ end] => destruct c end);
    reflexivity.
Qed.

(** C6. When no photo with the id belongs to the user (no such id, or
    owned by another user), delete and update answer the same 404 and leave
    the store unchanged. *)
Theorem not_owned_no_mutation (st : DB) (uid pid : Z) (r : PutReq) :
  (forall p, In p (db_photos st) -> ph_id p = pid -> ph_user_id p <> uid) ->
  run (delete_photo uid pid) st = (mkResp 404 (BError "Photo not found or access denied"), st) /\
  run (put_photo uid pid r) st = (mkResp 404 (BError "Photo not found or unauthorized"), st).
Proof.
  intros Hnot.
  assert (Hnil : owned_photos pid uid st = []).
  { unfold owned_photos. apply filter_nil_iff. intros p Hp.
    destruct (ph_id p =? pid) eqn:E1; [|reflexivity]. apply Z.eqb_eq in E1.
    apply Z.eqb_neq. exact (Hnot p Hp E1). }
  unfold run, delete_photo, put_photo, bind, select_owned_photo, read.
  rewrite Hnil. split; reflexivity.
Qed.

Lemma insert_airport_ok a st : exists o, fst (insert_airport a st) = inr o.
Proof.
  unfold insert_airport, bind, read, write, ret. cbn.
  destruct (existsb _ _); eexists; reflexivity.
Qed.

Lemma put_airport_halt r st resp st1 :
  put_airport r st = (inl resp, st1) -> status resp = 400 \/ status resp = 500.
Proof.
  unfold put_airport, bind, halt, ret.
  destruct (is_other _); [|discriminate].
  destruct (negb _); [intros H; injection H as <- _; left; reflexivity|].
  set (a := mkAirport _ _ _ _).
  destruct (insert_airport_ok a st) as [o Ho].
  destruct (insert_airport a st) as [o' st2]. cbn in Ho. subst o'.
  destruct o as [e|]; [|discriminate].
  destruct (String.eqb _ _); [discriminate|]. intros H; injection H as <- _. right; reflexivity.
Qed.

Lemma cleanup_rh_photos u st : db_photos (snd (cleanup_rh u st)) = db_photos st.
Proof.
  unfold cleanup_rh, bind, count_photos_with_rh, read, select_rh, delete_rh, write, ret,
    count_rhs_with_sa, delete_sa.
  repeat (cbn; match goal with |- context [match ?c with _ => _ end] => destruct c end);
    reflexivity.
Qed.

(** C10. A successful update writes all six metadata fields of the photo
    from the request, [null] for a missing or empty one; the registration
    reference is written only when the resolved one differs from the old
    one. *)
Theorem put_overwrites_metadata (st : DB) (uid pid : Z) (r : PutReq) (p : Photo)
  (resp : Resp) (st' : DB) :
  owned_photos pid uid st = [p] ->
  run (put_photo uid pid r) st = (resp, st') ->
  status resp = 200 ->
  (exists q, In q (db_photos st') /\ ph_id q = pid /\ ph_user_id q = uid /\
     ph_taken_at q = or_null (f_taken_at (pu_fields r)) /\
     ph_shutter_speed q = or_null (f_shutter_speed (pu_fields r)) /\
     ph_iso q = or_null (f_iso (pu_fields r)) /\
     ph_aperture q = or_null (f_aperture (pu_fields r)) /\
     ph_camera_model q = or_null (f_camera_model (pu_fields r)) /\
     ph_focal_length q = or_null (f_focal_length (pu_fields r))) /\
  (forall code old fin,
     u_fields (put_updates r code old fin) = fields_or_null (pu_fields r) /\
     (u_uuid_rh (put_updates r code old fin) = None <-> fin = old)).
Proof.
  intros Hown Hrun H200. split.
  - unfold run, put_photo, bind at 1, select_owned_photo, read in Hrun.
    rewrite Hown in Hrun. cbn [single] in Hrun. unfold bind at 1 in Hrun.
    pose proof (put_airport_grows r st) as GA.
    destruct (put_airport r st) as [[ra|code] st1] eqn:EA.
    { injection Hrun as <- _. apply put_airport_halt in EA. lia. }
    destruct (put_resolve_spec r (ph_uuid_rh p) st1) as [fin [EF [GR _]]].
    unfold bind at 1 in Hrun.
    destruct (put_resolve_rh r (ph_uuid_rh p) st1) as [[x|y] st2] eqn:ER;
      cbn [fst snd] in EF, GR; [discriminate|]. injection EF as ->.
    destruct (grows_trans _ _ _ GA GR) as (GP & _).
    cbn [snd] in GA.
    unfold update_photo, write, bind at 1 in Hrun. cbn [fst snd] in Hrun.
    set (st3 := {| db_photos := _ |}) in Hrun.
    unfold bind in Hrun.
    assert (Hc : exists st4, db_photos st4 = db_photos st3 /\
      (if negb (opt_eqb fin (ph_uuid_rh p))
       then match ph_uuid_rh p with Some o => cleanup_rh o | None => ret tt end
       else ret tt) st3 = (inr tt, st4)).
    { destruct (negb _); [destruct (ph_uuid_rh p) as [o|]|];
        [| eexists; split; reflexivity | eexists; split; reflexivity].
      pose proof (cleanup_rh_ok o st3) as Cok. pose proof (cleanup_rh_photos o st3) as Cp.
      destruct (cleanup_rh o st3) as [c4 st4]. cbn in Cok, Cp. subst c4. eauto. }
    destruct Hc as [st4 [Hp4 Hc]]. rewrite Hc in Hrun. unfold ret in Hrun.
    injection Hrun as _ <-. rewrite Hp4.
    set (u := put_updates r code (ph_uuid_rh p) fin).
    exists (apply_update u p). cbn [st3 db_photos set_photos].
    assert (Hpin : In p (owned_photos pid uid st)) by (rewrite Hown; left; reflexivity).
    unfold owned_photos in Hpin. apply filter_In in Hpin. destruct Hpin as [Hpin Hm].
    rewrite GP. split.
    + apply in_map_iff. exists p. split; [rewrite Hm; reflexivity|exact Hpin].
    + apply andb_true_iff in Hm. destruct Hm as [Hm1 Hm2]. apply Z.eqb_eq in Hm1, Hm2.
      cbn. repeat split; auto.
  - intros code old fin. split; [reflexivity|]. unfold put_updates. cbn [u_uuid_rh].
    destruct (opt_eqb fin old) eqn:E; cbn.
    + split; auto. intros _. destruct fin, old; cbn in E; try discriminate; auto.
      apply Z.eqb_eq in E. congruence.
    + split; [discriminate|]. intros ->. destruct old; cbn in E; [rewrite Z.eqb_refl in E|]; discriminate.
Qed.

Lemma post_airport_spec r st :
  let (res, st1) := post_airport r st in
  db_photos st1 = db_photos st /\ db_rhs st1 = db_rhs st /\ db_sas st1 = db_sas st /\
  (forall resp, res = inl resp -> status resp = 400 \/ status resp = 500).
Proof.
  unfold post_airport, bind, halt, ret.
  destruct (is_other _); [|repeat split; auto; discriminate].
  destruct (negb _); [repeat split; auto; intros resp H; injection H as <-; left; reflexivity|].
  set (a := mkAirport _ _ _ _).
  unfold insert_airport, bind, read, write, ret. cbn [fst snd].
  destruct (existsb _ _); cbn.
  - repeat split; auto. intros resp H; injection H as <-. right; reflexivity.
  - repeat split; auto. discriminate.
Qed.

(** C3. A successful create with an aircraft type and no explicit
    registration id appends exactly one airframe (with the given type and
    date) and one registration (uppercased text, pointing at the new
    airframe, with the given airline, current), both with fresh ids, and
    the new photo refers to that registration; existing rows with the same
    registration text are not reused. *)
Theorem post_type_fresh_pair (st : DB) (uid : Z) (url : string) (r : PostReq) (t : string)
  (resp : Resp) (st' : DB) :
  pr_uuid_rh r = None ->
  pr_aircraft_type_id r = Some t -> t <> "" ->
  run (post_photo uid url r) st = (resp, st') ->
  status resp = 201 ->
  exists sa rh p reg,
    db_sas st' = db_sas st ++ [sa] /\ ~ In (sa_uuid sa) (map sa_uuid (db_sas st)) /\
    sa_icao_type sa = t /\ sa_manufactured_date sa = str_or_null (pr_manufactured_date r) /\
    db_rhs st' = db_rhs st ++ [rh] /\ ~ In (rh_uuid rh) (map rh_uuid (db_rhs st)) /\
    pr_registration r = Some reg /\ rh_registration rh = toUpperCase reg /\
    rh_uuid_sa rh = Some (sa_uuid sa) /\ rh_airline rh = pr_airline_code r /\
    rh_is_current rh = true /\
    db_photos st' = db_photos st ++ [p] /\ ph_uuid_rh p = Some (rh_uuid rh) /\
    body resp = BPhoto p.
Proof.
  intros Hu Ht Htne Hrun H201.
  unfold run, post_photo in Hrun.
  destruct (pr_has_file r); cbn [negb] in Hrun;
    [|unfold halt in Hrun; injection Hrun as <- _; discriminate].
  pose proof (post_airport_spec r st) as PA.
  unfold bind at 1 in Hrun.
  destruct (post_airport r st) as [[ra|code] st1].
  { destruct PA as (_ & _ & _ & Hs). injection Hrun as <- _.
    destruct (Hs ra eq_refl); lia. }
  destruct PA as (P1 & R1 & S1 & _).
  unfold bind at 1, post_resolve_rh in Hrun. rewrite Hu, Ht in Hrun.
  assert (Ht' : str_truthy (Some t) = true).
  { cbn. destruct (String.eqb_spec t ""); [contradiction|reflexivity]. }
  rewrite Ht' in Hrun. cbn [unwrap] in Hrun.
  unfold insert_sa, bind, read, write, ret in Hrun. cbn [fst snd] in Hrun.
  destruct (pr_registration r) as [reg|] eqn:Hreg; cbn [upper_or_throw] in Hrun;
    [|unfold halt in Hrun; injection Hrun as <- _; discriminate].
  unfold ret, insert_rh, insert_photo, bind, read, write, ret in Hrun.
  cbn -[fresh_sa_uuid fresh_rh_uuid fresh_photo_id] in Hrun.
  injection Hrun as <- <-.
  eexists _, _, _, reg. cbn -[fresh_sa_uuid fresh_rh_uuid fresh_photo_id].
  rewrite P1, R1, S1.
  repeat split; auto.
  - pose proof (fresh_sa_not_in st1) as F. rewrite S1 in F. exact F.
  - pose proof (fresh_rh_not_in st1) as F. unfold fresh_rh_uuid in *. cbn [rh_uuid db_rhs].
    rewrite R1 in F. exact F.
Qed.

(** C2. Updating the only photo of registration [A] so that it refers to
    [B <> A] writes the photo first, then deletes [A], then (possibly) the
    airframe of [A]; [A] is gone, the airframe of [A] is gone exactly when
    no registration refers to it, and the rows of [B] and its airframe
    stay. [B] is the given identifier or a registration row of the store. *)
Theorem put_photo_repoint (st : DB) (uid pid : Z) (r : PutReq) (p : Photo)
  (rhA : RegistrationHistory) (B : Z) :
  owned_photos pid uid st = [p] ->
  ph_uuid_rh p = Some (rh_uuid rhA) ->
  In rhA (db_rhs st) ->
  NoDup (map rh_uuid (db_rhs st)) ->
  photos_with_rh (rh_uuid rhA) (db_photos st) = [p] ->
  B <> rh_uuid rhA ->
  let st' := snd (run (put_photo uid pid r) st) in
  (exists q, In q (db_photos st') /\ ph_id q = pid /\ ph_user_id q = uid /\
             ph_uuid_rh q = Some B) ->
  (exists pre post,
      db_log st' = db_log st ++ pre ++ WUpdatePhoto pid :: WDeleteRH (rh_uuid rhA) :: post /\
      forallb is_insert pre = true /\
      (post = [] \/ exists s, rh_uuid_sa rhA = Some s /\ post = [WDeleteSA s])) /\
  (~ exists x, In x (db_rhs st') /\ rh_uuid x = rh_uuid rhA) /\
  (forall s, rh_uuid_sa rhA = Some s -> (exists a, In a (db_sas st) /\ sa_uuid a = s) ->
     ((~ exists a, In a (db_sas st') /\ sa_uuid a = s) <->
      (~ exists x, In x (db_rhs st') /\ rh_uuid_sa x = Some s))) /\
  (forall x, In x (db_rhs st) -> rh_uuid x = B -> In x (db_rhs st')) /\
  (forall a, In a (db_sas st) ->
     (exists x, In x (db_rhs st') /\ rh_uuid x = B /\ rh_uuid_sa x = Some (sa_uuid a)) ->
     In a (db_sas st')) /\
  ((exists x, In x (db_rhs st') /\ rh_uuid x = B) \/ pu_uuid_rh r = Some B).
Proof.
  intros Hown Hp Hin Hnd Hone HB st' Hq.
  assert (Est : st' = snd (run (put_photo uid pid r) st)) by reflexivity.
  clearbody st'.
  unfold run, put_photo, bind, select_owned_photo, read in Est.
  rewrite Hown in Est. cbn [single] in Est.
  pose proof (put_airport_grows r st) as GA.
  destruct (put_airport r st) as [[resp|code] st1] eqn:EA; cbn [snd] in GA.
  { (* the airport step answered: the photo is untouched *)
    cbn [snd] in Est. subst st'.
    destruct Hq as [q [Hq [Hid [Hu Hr]]]].
    destruct GA as [GP _]. rewrite GP in Hq.
    rewrite (owned_unique pid uid st p q Hown Hq Hid Hu) in Hr. congruence. }
  destruct (put_resolve_spec r (ph_uuid_rh p) st1) as [fin [EF [GR HF]]].
  destruct (put_resolve_rh r (ph_uuid_rh p) st1) as [[x|y] st2] eqn:ER;
    cbn [fst snd] in EF, GR, HF; [discriminate|]. injection EF as ->.
  pose proof (grows_trans _ _ _ GA GR) as G.
  destruct G as (GP & [nr GR'] & [ns GS'] & [ws [GL GW]] & GN).
  unfold update_photo, write in Est. cbn [fst snd set_photos db_photos db_rhs db_sas
    db_types db_airports db_clock db_log] in Est.
  fold (upd_row pid uid (put_updates r code (ph_uuid_rh p) fin)) in Est.
  rewrite GP in Est.
  set (u := put_updates r code (ph_uuid_rh p) fin) in Est.
  rewrite Hp in Est.
  destruct (opt_eqb fin (Some (rh_uuid rhA))) eqn:Efin; cbn [negb] in Est.
  { (* no re-pointing: contradiction with the final reference [B] *)
    unfold ret in Est. cbn in Est. subst st'.
    destruct Hq as [q [Hq [Hid [Hu Hr]]]]. cbn in Hq.
    apply in_map_upd in Hq; auto. destruct Hq as [q0 [Hq0 [Hid0 [Hu0 ->]]]].
    rewrite (owned_unique pid uid st p q0 Hown Hq0 Hid0 Hu0) in Hr.
    subst u. unfold apply_update, put_updates in Hr. rewrite Hp, Efin in Hr. cbn in Hr. congruence. }
  assert (Hu : u_uuid_rh u = Some fin).
  { subst u. unfold put_updates. rewrite Hp, Efin. reflexivity. }
  set (st3 := {| db_photos := map (upd_row pid uid u) (db_photos st);
                 db_rhs := db_rhs st2; db_sas := db_sas st2; db_types := db_types st2;
                 db_airports := db_airports st2; db_clock := db_clock st2;
                 db_log := db_log st2 ++ [WUpdatePhoto pid] |}) in Est.
  assert (Hnone : photos_with_rh (rh_uuid rhA) (db_photos st3) = []).
  { apply (no_ref_after_update pid uid u st p); auto.
    exists fin. split; auto. intros ->. cbn in Efin. rewrite Z.eqb_refl in Efin. discriminate. }
  assert (Hin3 : In rhA (db_rhs st3)).
  { cbn. rewrite GR'. apply in_or_app. auto. }
  assert (Hnd3 : NoDup (map rh_uuid (db_rhs st3))) by (cbn; auto).
  pose proof (cleanup_rh_spec st3 rhA Hin3 Hnd3 Hnone) as C.
  cbn zeta in C.
  pose proof (cleanup_rh_ok (rh_uuid rhA) st3) as Cok.
  destruct (cleanup_rh (rh_uuid rhA) st3) as [res4 st4] eqn:E4.
  cbn [fst snd] in C, Cok. subst res4.
  unfold ret in Est. cbn in Est. subst st'.
  destruct C as (C1 & C2 & C3).
  assert (HfB : fin = Some B).
  { destruct Hq as [q [Hq [Hid [Hq2 Hr]]]]. rewrite C1 in Hq. cbn in Hq.
    apply in_map_upd in Hq; auto. destruct Hq as [q0 [Hq0 [Hid0 [Hu0 ->]]]].
    rewrite (owned_unique pid uid st p q0 Hown Hq0 Hid0 Hu0) in Hr.
    unfold apply_update in Hr. rewrite Hu in Hr. exact Hr. }
  subst fin.
  assert (HBA : (B =? rh_uuid rhA) = false) by (apply Z.eqb_neq; exact HB).
  assert (Hkeep : forall x, In x (db_rhs st2) -> rh_uuid x = B -> In x (db_rhs st4)).
  { intros x Hx HxB. rewrite C2. cbn. apply filter_In. split; auto.
    rewrite HxB, HBA. reflexivity. }
  split; [|split; [|split; [|split; [|split]]]].
  - destruct C3 as [[s [Hs [Hr [Hsa Hlog]]]] | [Hr [Hsa Hlog]]].
    + exists ws, [WDeleteSA s]. rewrite Hlog. cbn. rewrite GL.
      repeat rewrite <- app_assoc. split; [reflexivity|]. split; auto. right; eauto.
    + exists ws, []. rewrite Hlog. cbn. rewrite GL.
      repeat rewrite <- app_assoc. split; [reflexivity|]. split; auto.
  - rewrite C2. apply (not_in_filter_key rh_uuid).
  - intros s Hs [a [Ha Has]].
    destruct C3 as [[s0 [Hs0 [Hr [Hsa Hlog]]]] | [Hr [Hsa Hlog]]].
    + rewrite Hs in Hs0. injection Hs0 as <-.
      unfold rhs_with_sa in Hr. rewrite (no_ref_iff rh_uuid_sa) in Hr.
      split; intros _; [exact Hr|]. rewrite Hsa. apply (not_in_filter_key sa_uuid).
    + specialize (Hr s Hs). unfold rhs_with_sa in Hr. rewrite (no_ref_iff rh_uuid_sa) in Hr.
      split; intros H; exfalso.
      * apply H. exists a. split; auto. rewrite Hsa. cbn. rewrite GS'. apply in_or_app; auto.
      * apply Hr. exact H.
  - intros x Hx HxB. apply Hkeep; auto. rewrite GR'. apply in_or_app; auto.
  - intros a Ha [x [Hx [HxB Hxa]]].
    destruct C3 as [[s0 [Hs0 [Hr [Hsa Hlog]]]] | [Hr [Hsa Hlog]]].
    + rewrite Hsa. cbn. apply filter_In. split; [rewrite GS'; apply in_or_app; auto|].
      destruct (sa_uuid a =? s0) eqn:E; [|reflexivity]. apply Z.eqb_eq in E.
      exfalso. unfold rhs_with_sa in Hr. rewrite (no_ref_iff rh_uuid_sa) in Hr.
      apply Hr. exists x. rewrite <- E. auto.
    + rewrite Hsa. cbn. rewrite GS'. apply in_or_app; auto.
  - destruct HF as [HF | [HF | [rh [Hrh HF]]]].
    + rewrite Hp in HF. rewrite <- HF in Efin. cbn in Efin. rewrite Z.eqb_refl in Efin. discriminate.
    + right. exact HF.
    + left. exists rh. injection HF as HF. split; [apply Hkeep; auto|auto].
Qed.

Lemma cleanup_rh_shrinks u st :
  let st' := snd (cleanup_rh u st) in
  (forall x, In x (db_rhs st') -> In x (db_rhs st)) /\
  (forall a, In a (db_sas st') -> In a (db_sas st)) /\
  db_photos st' = db_photos st.
Proof.
  unfold cleanup_rh, bind, count_photos_with_rh, read, select_rh, delete_rh, write, ret,
    count_rhs_with_sa, delete_sa.
  split_matches; repeat split; auto;
    intros x Hx; repeat (apply filter_In in Hx; destruct Hx as [Hx _]); exact Hx.
Qed.

Lemma put_airport_spec r st :
  let (res, st1) := put_airport r st in
  db_photos st1 = db_photos st /\ db_rhs st1 = db_rhs st /\ db_sas st1 = db_sas st /\
  (forall resp, res = inl resp -> status resp = 400 \/ status resp = 500).
Proof.
  unfold put_airport, bind, halt, ret.
  unfold insert_airport, bind, read, write, ret.
  split_matches; repeat split; auto; try discriminate;
    intros resp H; injection H as <-; cbn; auto.
Qed.

Lemma opt_eqb_refl o : opt_eqb o o = true.
Proof. destruct o; cbn; auto using Z.eqb_refl. Qed.

Lemma put_resolve_lookup r old st :
  pu_uuid_rh r = None -> str_truthy (pu_aircraft_type_id r) = false ->
  exists fin, put_resolve_rh r old st = (inr fin, st) /\
  (forall reg, pu_registration r = Some reg ->
     rhs_with_registration (toUpperCase reg) (db_rhs st) = [] -> fin = old).
Proof.
  intros Hu Ht. unfold put_resolve_rh. rewrite Hu, Ht.
  destruct (str_truthy (pu_registration r)).
  - unfold bind, lookup_registration, read. cbn [fst snd].
    destruct (pu_registration r) as [reg|] eqn:Hreg.
    + cbn [unwrap].
      destruct (rhs_with_registration (toUpperCase reg) (db_rhs st)) as [|rh rest] eqn:Em;
        cbn [firstn].
      * exists old. split; [reflexivity|]. auto.
      * exists (Some (rh_uuid rh)). split; [reflexivity|].
        intros reg' H' Hn. injection H' as <-. congruence.
    + cbn [unwrap].
      destruct (rhs_with_registration (toUpperCase "") (db_rhs st)) as [|rh rest];
        cbn [firstn].
      * exists old. split; [reflexivity|]. auto.
      * exists (Some (rh_uuid rh)). split; [reflexivity|]. discriminate.
  - exists old. split; [reflexivity|]. auto.
Qed.

Lemma post_airport_inl r st ra st1 :
  post_airport r st = (inl ra, st1) ->
  is_other (pr_airport_code r) = true /\ st1 = st /\
  (ra = missing_airport_fields \/ status ra = 500).
Proof.
  unfold post_airport, bind, halt, ret.
  destruct (is_other _); [|discriminate].
  destruct (negb _); [intros H; injection H as <- <-; auto|].
  unfold insert_airport, bind, read, write, ret. cbn [fst snd].
  destruct (existsb _ _); cbn; [intros H; injection H as <- <-; auto|discriminate].
Qed.

Lemma put_airport_inl r st ra st1 :
  put_airport r st = (inl ra, st1) ->
  is_other (pu_airport_code r) = true /\ ra = missing_airport_fields /\ st1 = st.
Proof.
  unfold put_airport, bind, halt, ret.
  destruct (is_other _); [|discriminate].
  destruct (negb _); [intros H; injection H as <- <-; auto|].
  unfold insert_airport, bind, read, write, ret. cbn [fst snd].
  destruct (existsb _ _); cbn; discriminate.
Qed.

(** C4 (code bug). With a registration text only (no aircraft type, no
    registration id), neither a create nor an update adds an airframe or a
    registration. When no registration matches the text, a create with an
    image adds no photo and answers [registration_not_found], unless an
    [other] airport is rejected first (400 or 500, store unchanged);
    an update keeps the photo's old reference and answers 200, unless an
    [other] airport with a missing field is rejected first (400, store
    unchanged). *)
Theorem registration_only_no_create :
  (forall (st : DB) (uid : Z) (url : string) (r : PostReq) (resp : Resp) (st' : DB),
     pr_uuid_rh r = None -> str_truthy (pr_aircraft_type_id r) = false ->
     run (post_photo uid url r) st = (resp, st') ->
     db_rhs st' = db_rhs st /\ db_sas st' = db_sas st /\
     (forall reg, pr_registration r = Some reg ->
        rhs_with_registration (toUpperCase reg) (db_rhs st) = [] ->
        db_photos st' = db_photos st /\
        (pr_has_file r = true ->
         resp = registration_not_found \/
         (is_other (pr_airport_code r) = true /\ st' = st /\
          (resp = missing_airport_fields \/ status resp = 500))))) /\
  (forall (st : DB) (uid pid : Z) (r : PutReq) (p : Photo) (resp : Resp) (st' : DB),
     pu_uuid_rh r = None -> str_truthy (pu_aircraft_type_id r) = false ->
     owned_photos pid uid st = [p] ->
     run (put_photo uid pid r) st = (resp, st') ->
     (forall x, In x (db_rhs st') -> In x (db_rhs st)) /\
     (forall a, In a (db_sas st') -> In a (db_sas st)) /\
     (forall reg, pu_registration r = Some reg ->
        rhs_with_registration (toUpperCase reg) (db_rhs st) = [] ->
        (forall q, In q (db_photos st') -> ph_id q = pid -> ph_user_id q = uid ->
           ph_uuid_rh q = ph_uuid_rh p) /\
        (resp = mkResp 200 (BMessage "Photo updated successfully") \/
         (is_other (pu_airport_code r) = true /\ resp = missing_airport_fields /\ st' = st)))).
Proof.
  split.
  - intros st uid url r resp st' Hu Ht Hrun.
    unfold run, post_photo in Hrun.
    destruct (pr_has_file r) eqn:Hf; cbn [negb] in Hrun.
    2:{ unfold halt in Hrun. injection Hrun as <- <-. repeat split. intros. discriminate. }
    unfold bind at 1 in Hrun.
    destruct (post_airport r st) as [[ra|code] st1] eqn:EA.
    { destruct (post_airport_inl _ _ _ _ EA) as (Ho & -> & Hra).
      injection Hrun as <- <-. repeat split; auto. }
    pose proof (post_airport_spec r st) as PA. rewrite EA in PA.
    destruct PA as (P1 & R1 & S1 & _).
    unfold bind at 1, post_resolve_rh in Hrun. rewrite Hu, Ht in Hrun.
    destruct (pr_registration r) as [reg|] eqn:Hreg; cbn [upper_or_throw] in Hrun.
    2:{ unfold halt in Hrun. injection Hrun as <- <-. repeat split; auto. intros. discriminate. }
    unfold ret, bind, lookup_registration, read in Hrun. cbn [fst snd] in Hrun.
    rewrite R1 in Hrun.
    destruct (rhs_with_registration (toUpperCase reg) (db_rhs st)) as [|rh rest] eqn:Em;
      cbn [firstn] in Hrun.
    + unfold halt in Hrun. injection Hrun as <- <-. repeat split; auto.
    + unfold insert_photo, bind, read, write, ret in Hrun. cbn in Hrun.
      injection Hrun as <- <-. cbn. repeat split; auto.
      all: intros; congruence.
  - intros st uid pid r p resp st' Hu Ht Hown Hrun.
    unfold run, put_photo, bind, select_owned_photo, read in Hrun.
    rewrite Hown in Hrun. cbn [single] in Hrun.
    pose proof (put_airport_spec r st) as PA.
    destruct (put_airport r st) as [[ra|code] st1] eqn:EA;
      destruct PA as (P1 & R1 & S1 & _).
    { destruct (put_airport_inl _ _ _ _ EA) as (Ho & Hra & Hst1).
      injection Hrun as <- <-. rewrite R1, S1. repeat split; auto.
      - intros q Hq Hid Hq2. rewrite P1 in Hq.
        rewrite (owned_unique pid uid st p q Hown Hq Hid Hq2). reflexivity. }
    destruct (put_resolve_lookup r (ph_uuid_rh p) st1 Hu Ht) as [fin [ER Hfin]].
    rewrite ER in Hrun. rewrite R1 in Hfin.
    unfold update_photo, write in Hrun. cbn [fst snd set_photos db_photos db_rhs db_sas
      db_types db_airports db_clock db_log] in Hrun.
    fold (upd_row pid uid (put_updates r code (ph_uuid_rh p) fin)) in Hrun.
    destruct (opt_eqb fin (ph_uuid_rh p)) eqn:Efin; cbn [negb] in Hrun.
    + unfold ret in Hrun. injection Hrun as <- <-. cbn. rewrite R1, S1.
      repeat split; auto.
      intros q Hq Hid Hq2. apply in_map_upd in Hq; auto.
      destruct Hq as [q0 [Hq0 [Hid0 [Hu0 ->]]]]. rewrite P1 in Hq0.
      rewrite (owned_unique pid uid st p q0 Hown Hq0 Hid0 Hu0).
      unfold apply_update, put_updates. rewrite Efin. reflexivity.
    + set (st3 := {| db_photos := _ |}) in Hrun.
      assert (Hc : exists st4 : DB, (match ph_uuid_rh p with
                                | Some o => cleanup_rh o | None => ret tt end) st3
                              = (inr tt, st4) /\
              (forall x, In x (db_rhs st4) -> In x (db_rhs st3)) /\
              (forall a, In a (db_sas st4) -> In a (db_sas st3))).
      { destruct (ph_uuid_rh p) as [o|].
        - pose proof (cleanup_rh_shrinks o st3) as (CR & CS & _).
          pose proof (cleanup_rh_ok o st3) as Cok.
          destruct (cleanup_rh o st3) as [x st4]. cbn in Cok, CR, CS. subst x. eauto.
        - exists st3. split; [reflexivity|]. auto. }
      destruct Hc as [st4 [E4 [CR CS]]]. rewrite E4 in Hrun.
      unfold ret in Hrun. injection Hrun as <- <-.
      split; [|split].
      * intros x Hx. apply CR in Hx. cbn in Hx. rewrite R1 in Hx. exact Hx.
      * intros a Ha. apply CS in Ha. cbn in Ha. rewrite S1 in Ha. exact Ha.
      * intros reg Hreg Hn. rewrite (Hfin reg Hreg Hn), opt_eqb_refl in Efin. discriminate.
Qed.

Lemma post_resolve_airports r d st :
  db_airports (snd (post_resolve_rh r d st)) = db_airports st.
Proof.
  unfold post_resolve_rh, insert_sa, insert_rh, upper_or_throw, lookup_registration,
    bind, read, write, ret, halt.
  split_matches; reflexivity.
Qed.

Lemma insert_photo_spec uid u code url f st :
  exists p, insert_photo uid u code url f st = (inr p, snd (insert_photo uid u code url f st)) /\
    ph_airport_code p = code /\
    db_airports (snd (insert_photo uid u code url f st)) = db_airports st.
Proof.
  unfold insert_photo, bind, read, write, ret. cbn -[fresh_photo_id]. eauto.
Qed.

(** C7 (code bug). A create with airport code [other]: a missing airport
    field answers 400 and changes nothing; an ICAO code already stored
    answers 500 [Failed to insert airport: ...] and changes nothing;
    otherwise the airport row with the uppercased code is appended and the
    new photo carries that code. *)
Theorem post_other_airport (st : DB) (uid : Z) (url : string) (r : PostReq)
  (resp : Resp) (st' : DB) :
  pr_has_file r = true -> is_other (pr_airport_code r) = true ->
  run (post_photo uid url r) st = (resp, st') ->
  (airport_fields_present (pr_airport_icao_code r) (pr_airport_name r)
     (pr_airport_latitude r) (pr_airport_longitude r) = false ->
   resp = missing_airport_fields /\ st' = st) /\
  (forall icao, pr_airport_icao_code r = Some icao ->
   airport_fields_present (pr_airport_icao_code r) (pr_airport_name r)
     (pr_airport_latitude r) (pr_airport_longitude r) = true ->
   existsb (fun x => String.eqb (ap_icao_code x) (toUpperCase icao)) (db_airports st) = true ->
   resp = mkResp 500 (BError (String.append "Failed to insert airport: " (err_message airport_dup)))
   /\ st' = st) /\
  (forall icao, pr_airport_icao_code r = Some icao ->
   airport_fields_present (pr_airport_icao_code r) (pr_airport_name r)
     (pr_airport_latitude r) (pr_airport_longitude r) = true ->
   existsb (fun x => String.eqb (ap_icao_code x) (toUpperCase icao)) (db_airports st) = false ->
   db_airports st' = db_airports st ++
     [mkAirport (toUpperCase icao) (unwrap (pr_airport_name r))
        (unwrap (pr_airport_latitude r)) (unwrap (pr_airport_longitude r))] /\
   (forall p, body resp = BPhoto p -> ph_airport_code p = Some (toUpperCase icao))).
Proof.
  intros Hf Ho Hrun.
  unfold run, post_photo in Hrun. rewrite Hf in Hrun. cbn [negb] in Hrun.
  unfold bind at 1, post_airport in Hrun. rewrite Ho in Hrun.
  destruct (airport_fields_present _ _ _ _) eqn:Hp; cbn [negb] in Hrun.
  2:{ unfold halt in Hrun. injection Hrun as <- <-.
      split; [auto|]. split; intros; discriminate. }
  split; [discriminate|].
  unfold insert_airport, bind, read in Hrun. cbn beta iota in Hrun.
  split.
  - intros icao Hi _ Ht. rewrite Hi in Hrun. cbn [unwrap ap_icao_code] in Hrun.
    rewrite Ht in Hrun. unfold ret, halt in Hrun. cbn in Hrun.
    injection Hrun as <- <-. auto.
  - intros icao Hi _ Ht. rewrite Hi in Hrun. cbn [unwrap ap_icao_code] in Hrun.
    rewrite Ht in Hrun. unfold write, ret, set_airports in Hrun. cbn beta iota zeta in Hrun.
    set (st1 := mkDB _ _ _ _ _ _ _) in Hrun.
    assert (A1 : db_airports st1 = db_airports st ++
      [mkAirport (toUpperCase icao) (unwrap (pr_airport_name r))
        (unwrap (pr_airport_latitude r)) (unwrap (pr_airport_longitude r))]) by reflexivity.
    clearbody st1.
    pose proof (post_resolve_airports r (str_or_null (pr_manufactured_date r)) st1) as A2.
    destruct (post_resolve_rh r (str_or_null (pr_manufactured_date r)) st1)
      as [[ra|u] st2] eqn:ER; cbn [snd] in A2.
    + injection Hrun as <- <-. split; [congruence|]. intros p Hb.
      unfold post_resolve_rh in ER. destruct (pr_uuid_rh r); [discriminate|].
      destruct (str_truthy (pr_aircraft_type_id r)).
      * unfold bind, insert_sa, insert_rh, upper_or_throw, read, write, ret, halt in ER.
        destruct (pr_registration r); cbn in ER;
          first [discriminate ER | injection ER as Hra _; subst ra; cbn in Hb; discriminate Hb].
      * unfold bind, upper_or_throw, lookup_registration, read, ret, halt in ER.
        destruct (pr_registration r); cbn in ER; [destruct (rhs_with_registration _ _); cbn in ER|];
          first [discriminate ER | injection ER as Hra _; subst ra; cbn in Hb; discriminate Hb].
    + destruct (insert_photo_spec uid u (Some (toUpperCase icao)) url
                 (fields_or_null (pr_fields r)) st2) as [p [Ei [Pc Pa]]].
      rewrite Ei in Hrun. unfold ret in Hrun. injection Hrun as <- <-.
      split; [cbn; congruence|]. intros p' Hb. cbn in Hb. injection Hb as <-. exact Pc.
Qed.

(** C5. With two rows for the same registration, the create route refers
    the photo to the first row of the table (created at 1), not to the most
    recent one (created at 5), which [spec_most_recent_rh] picks. *)
Theorem post_lookup_not_most_recent :
  (exists p, body (fst (run (post_photo 7 "img" lookup_req) two_rh_db)) = BPhoto p /\
             ph_uuid_rh p = Some 1) /\
  spec_most_recent_rh (toUpperCase "n12345") (db_rhs two_rh_db) = Some 2.
Proof. vm_compute. split; [eexists; split; reflexivity | reflexivity]. Qed.

(** C8. For every draw of [Math.random()] and more than 5 matching
    photos, the offset lies in [0, count - 5), so [count - 5] itself is
    never drawn. *)
Theorem random_offset_below_max (uid : Z) (search : string) (filt : list string)
  (k : Z) (st : DB) :
  0 <= k < 2 ^ 53 -> 5 < count_rows (mkFilter uid search filt) st ->
  exists off, rr_offset (my_photos_random uid search filt k st) = Some off /\
    0 <= off < count_rows (mkFilter uid search filt) st - 5.
Proof.
  intros Hk Hc. unfold my_photos_random, random_offset.
  set (c := count_rows _ st) in *.
  replace (c =? 0) with false by (symmetry; apply Z.eqb_neq; lia).
  replace (5 <? c) with true by (symmetry; apply Z.ltb_lt; lia).
  cbn [rr_offset]. eexists. split; [reflexivity|]. split.
  - apply Z.div_pos; [nia | lia].
  - apply Z.div_lt_upper_bound; [lia | nia].
Qed.

Lemma six_photos_offset_zero : forall k, 0 <= k < 2 ^ 53 ->
  rr_offset (my_photos_random 1 "" [] k six_photos_db) = Some 0.
Proof.
  intros k Hk. unfold my_photos_random, random_offset.
  replace (count_rows (mkFilter 1 "" []) six_photos_db) with 6 by reflexivity.
  cbn -[Z.pow]. f_equal. apply Z.div_small. lia.
Qed.

Lemma join_base_photo st p row : join_base st p = Some row -> row_photo row = p.
Proof.
  unfold join_base. destruct (join_rh_sa st p) as [[rh sa]|]; [|discriminate].
  destruct (find _ _); [|discriminate]. intros H. injection H as <-. reflexivity.
Qed.

Lemma join_base_set_photos ps st p : join_base (set_photos ps st) p = join_base st p.
Proof. reflexivity. Qed.

Lemma join_rh_sa_set_photos ps st p : join_rh_sa (set_photos ps st) p = join_rh_sa st p.
Proof. reflexivity. Qed.

Lemma photo_filter_user fp p rh sa :
  photo_filter fp p rh sa = true -> ph_user_id p = fp_userId fp.
Proof.
  unfold photo_filter. intros H. apply andb_true_iff in H as [H _].
  apply andb_true_iff in H as [H _]. apply Z.eqb_eq. exact H.
Qed.

Lemma photo_filter_other fp p rh sa :
  (ph_user_id p =? fp_userId fp) = false -> photo_filter fp p rh sa = false.
Proof. unfold photo_filter. intros ->. reflexivity. Qed.

Lemma in_base_rows fp st row :
  In row (base_rows fp st) -> ph_user_id (row_photo row) = fp_userId fp.
Proof.
  unfold base_rows. intros H. apply in_flat_map in H as [p [_ Hp]].
  destruct (join_base st p) as [row'|] eqn:E; [|destruct Hp].
  destruct (photo_filter fp p (row_rh row') (row_sa row')) eqn:F; [|destruct Hp].
  destruct Hp as [<-|[]]. rewrite (join_base_photo _ _ _ E).
  exact (photo_filter_user _ _ _ _ F).
Qed.

Lemma in_firstn {A} n (l : list A) x : In x (firstn n l) -> In x l.
Proof. intros H. rewrite <- (firstn_skipn n l). apply in_or_app. auto. Qed.

Lemma in_skipn {A} n (l : list A) x : In x (skipn n l) -> In x l.
Proof. intros H. rewrite <- (firstn_skipn n l). apply in_or_app. auto. Qed.

Lemma in_range {A} a b (l : list A) x : In x (range a b l) -> In x l.
Proof. unfold range. intros H. apply in_firstn, in_skipn in H. exact H. Qed.

Lemma in_insert_by tb y l x : In x (insert_by tb y l) -> x = y \/ In x l.
Proof.
  induction l as [|z l IH]; cbn.
  - intros [<-|[]]. auto.
  - destruct (tb _ _); cbn.
    + intros [<-|H]; auto.
    + intros [<-|H]; auto. apply IH in H as [H|H]; auto.
Qed.

Lemma in_sort_rows tb l x : In x (sort_rows tb l) -> In x l.
Proof.
  induction l as [|y l IH]; cbn; auto.
  intros H. apply in_insert_by in H as [H|H]; auto.
Qed.

Lemma flat_map_own (f : Photo -> list PhotoRow) uid ps :
  (forall p, (ph_user_id p =? uid) = false -> f p = []) ->
  flat_map f ps = flat_map f (own_photos uid ps).
Proof.
  intros Hf. unfold own_photos. induction ps as [|p ps IH]; cbn; auto.
  destruct (ph_user_id p =? uid) eqn:E; cbn; rewrite IH; auto. rewrite Hf; auto.
Qed.

Lemma filter_own (g : Photo -> bool) uid ps :
  (forall p, (ph_user_id p =? uid) = false -> g p = false) ->
  filter g ps = filter g (own_photos uid ps).
Proof.
  intros Hg. unfold own_photos. induction ps as [|p ps IH]; cbn; auto.
  destruct (ph_user_id p =? uid) eqn:E; cbn; rewrite IH; auto. rewrite Hg; auto.
Qed.

Lemma base_rows_own fp st :
  base_rows fp st = base_rows fp (set_photos (own_photos (fp_userId fp) (db_photos st)) st).
Proof.
  unfold base_rows at 1. rewrite flat_map_own with (uid := fp_userId fp).
  - reflexivity.
  - intros p E. destruct (join_base st p); auto. rewrite photo_filter_other; auto.
Qed.

Lemma count_rows_own fp st :
  count_rows fp st = count_rows fp (set_photos (own_photos (fp_userId fp) (db_photos st)) st).
Proof.
  unfold count_rows at 1. rewrite filter_own with (uid := fp_userId fp).
  - reflexivity.
  - intros p E. destruct (join_rh_sa st p) as [[rh sa]|]; auto. apply photo_filter_other; auto.
Qed.

(** C9. Every row listed by [/my-photos] and [/my-photos/random] is a
    photo of the requesting user, and both results are the same on any
    two stores that agree on that user's photos. *)
Theorem listing_own_photos_only (taken_before : jsval -> jsval -> bool) (uid : Z)
  (page_q limit_q : option Z) (search : string) (filt : list string) (k : Z) :
  (forall st row, In row (mp_data (my_photos taken_before uid page_q limit_q search filt st)) ->
     ph_user_id (row_photo row) = uid) /\
  (forall st row, In row (rr_data (my_photos_random uid search filt k st)) ->
     ph_user_id (row_photo row) = uid) /\
  (forall st ps, own_photos uid ps = own_photos uid (db_photos st) ->
     my_photos taken_before uid page_q limit_q search filt (set_photos ps st) =
     my_photos taken_before uid page_q limit_q search filt st /\
     my_photos_random uid search filt k (set_photos ps st) = my_photos_random uid search filt k st).
Proof.
  split; [|split].
  - intros st row H. unfold my_photos in H. cbn [mp_data] in H.
    apply in_range, in_sort_rows, in_base_rows in H. exact H.
  - intros st row H. unfold my_photos_random in H.
    destruct (_ =? 0) in H; cbn [rr_data] in H; [destruct H|].
    apply in_range, in_base_rows in H. exact H.
  - intros st ps Hps.
    assert (HB : base_rows (mkFilter uid search filt) (set_photos ps st) =
                 base_rows (mkFilter uid search filt) st).
    { rewrite (base_rows_own _ st), (base_rows_own _ (set_photos ps st)). cbn [fp_userId].
      cbn [db_photos set_photos]. rewrite Hps. reflexivity. }
    assert (HC : count_rows (mkFilter uid search filt) (set_photos ps st) =
                 count_rows (mkFilter uid search filt) st).
    { rewrite (count_rows_own _ st), (count_rows_own _ (set_photos ps st)). cbn [fp_userId].
      cbn [db_photos set_photos]. rewrite Hps. reflexivity. }
    unfold my_photos, my_photos_random. rewrite HB, HC. auto.
Qed.

(** ** The routes beyond the claims *)

Lemma put_photo_shape st uid pid r p resp st' :
  owned_photos pid uid st = [p] ->
  run (put_photo uid pid r) st = (resp, st') ->
  (put_airport r st = (inl resp, st')) \/
  (exists code st1 fin st2,
     put_airport r st = (inr code, st1) /\
     put_resolve_rh r (ph_uuid_rh p) st1 = (inr fin, st2) /\
     resp = mkResp 200 (BMessage "Photo updated successfully") /\
     st' = after_cleanup (ph_uuid_rh p) fin
             (after_update pid uid (put_updates r code (ph_uuid_rh p) fin) st2)).
Proof.
  intros Hown Hrun.
  unfold run, put_photo, bind, select_owned_photo, read in Hrun.
  rewrite Hown in Hrun. cbn [single] in Hrun.
  destruct (put_airport r st) as [[ra|code] st1] eqn:EA.
  { injection Hrun as <- <-. left. reflexivity. }
  right.
  destruct (put_resolve_spec r (ph_uuid_rh p) st1) as [fin [EF _]].
  destruct (put_resolve_rh r (ph_uuid_rh p) st1) as [[x|fin'] st2] eqn:ER;
    cbn [fst] in EF; [discriminate|]. injection EF as ->.
  exists code, st1, fin, st2. split; [reflexivity|]. split; [assumption|].
  unfold update_photo, write in Hrun. cbn [fst snd set_photos db_photos db_rhs db_sas
    db_types db_airports db_clock db_log] in Hrun.
  fold (upd_row pid uid (put_updates r code (ph_uuid_rh p) fin)) in Hrun.
  fold (after_update pid uid (put_updates r code (ph_uuid_rh p) fin) st2) in Hrun.
  unfold after_cleanup.
  destruct (negb (opt_eqb fin (ph_uuid_rh p))).
  - destruct (ph_uuid_rh p) as [o|].
    + pose proof (cleanup_rh_ok o (after_update pid uid (put_updates r code (Some o) fin) st2)) as C.
      destruct (cleanup_rh o _) as [c st4]. cbn in C. subst c. unfold ret in Hrun.
      injection Hrun as <- <-. auto.
    + unfold ret in Hrun. injection Hrun as <- <-. auto.
  - unfold ret in Hrun. injection Hrun as <- <-. auto.
Qed.

Lemma after_cleanup_photos old fin st : db_photos (after_cleanup old fin st) = db_photos st.
Proof.
  unfold after_cleanup. destruct (negb _); auto. destruct old; auto. apply cleanup_rh_photos.
Qed.

Lemma put_stage_photos r old st code st1 fin st2 :
  put_airport r st = (inr code, st1) -> put_resolve_rh r old st1 = (inr fin, st2) ->
  db_photos st2 = db_photos st.
Proof.
  intros EA ER.
  pose proof (put_airport_spec r st) as PA. rewrite EA in PA. destruct PA as (P1 & _).
  destruct (put_resolve_spec r old st1) as [fin' [_ [G _]]]. rewrite ER in G.
  destruct G as [G _]. cbn in G. congruence.
Qed.

Lemma upd_row_key pid uid u q :
  (ph_id (upd_row pid uid u q), ph_user_id (upd_row pid uid u q), ph_image_url (upd_row pid uid u q))
  = (ph_id q, ph_user_id q, ph_image_url q).
Proof. unfold upd_row. destruct (_ && _); reflexivity. Qed.

(** X4. An update never adds, removes, reorders or re-owns photo rows, and
    never touches a photo it does not target. *)
Theorem put_keeps_photo_rows (st : DB) (uid pid : Z) (r : PutReq) (resp : Resp) (st' : DB) :
  run (put_photo uid pid r) st = (resp, st') ->
  map (fun q => (ph_id q, ph_user_id q, ph_image_url q)) (db_photos st') =
  map (fun q => (ph_id q, ph_user_id q, ph_image_url q)) (db_photos st) /\
  (forall q, In q (db_photos st) -> (ph_id q =? pid) && (ph_user_id q =? uid) = false ->
     In q (db_photos st')).
Proof.
  intros Hrun.
  destruct (owned_photos pid uid st) as [|p [|p2 ps]] eqn:Hown.
  2:{ destruct (put_photo_shape st uid pid r p resp st' Hown Hrun) as
        [EA | (code & st1 & fin & st2 & EA & ER & _ & ->)].
      - pose proof (put_airport_spec r st) as PA. rewrite EA in PA.
        destruct PA as (P1 & _). rewrite P1. auto.
      - rewrite after_cleanup_photos. cbn [after_update db_photos].
        rewrite (put_stage_photos _ _ _ _ _ _ _ EA ER). split.
        + rewrite map_map. apply map_ext. apply upd_row_key.
        + intros q Hq E. apply in_map_iff. exists q. split; auto.
          unfold upd_row. rewrite E. reflexivity. }
  all: unfold run, put_photo, bind, select_owned_photo, read, halt in Hrun;
    rewrite Hown in Hrun; cbn in Hrun; injection Hrun as <- <-; auto.
Qed.

Lemma put_resolve_airports r old st :
  db_airports (snd (put_resolve_rh r old st)) = db_airports st.
Proof.
  unfold put_resolve_rh, insert_sa, insert_rh, lookup_registration, bind, read, write, ret.
  split_matches; reflexivity.
Qed.

Lemma cleanup_rh_airports u st :
  db_airports (snd (cleanup_rh u st)) = db_airports st /\ db_types (snd (cleanup_rh u st)) = db_types st.
Proof.
  unfold cleanup_rh, bind, count_photos_with_rh, read, select_rh, delete_rh, write, ret,
    count_rhs_with_sa, delete_sa.
  split_matches; split; reflexivity.
Qed.

Lemma after_cleanup_airports old fin st :
  db_airports (after_cleanup old fin st) = db_airports st.
Proof.
  unfold after_cleanup. destruct (negb _); auto. destruct old; auto. apply cleanup_rh_airports.
Qed.

(** X5. An update with airport [other] and an ICAO code already stored
    succeeds, inserts no airport, and stores the uppercased code on the
    photo. *)
Theorem put_duplicate_airport_accepted (st : DB) (uid pid : Z) (r : PutReq) (p : Photo)
  (icao : string) (resp : Resp) (st' : DB) :
  owned_photos pid uid st = [p] ->
  is_other (pu_airport_code r) = true ->
  pu_airport_icao_code r = Some icao ->
  airport_fields_present (pu_airport_icao_code r) (pu_airport_name r)
    (pu_airport_latitude r) (pu_airport_longitude r) = true ->
  existsb (fun x => String.eqb (ap_icao_code x) (toUpperCase icao)) (db_airports st) = true ->
  run (put_photo uid pid r) st = (resp, st') ->
  resp = mkResp 200 (BMessage "Photo updated successfully") /\
  db_airports st' = db_airports st /\
  (forall q, In q (db_photos st') -> ph_id q = pid -> ph_user_id q = uid ->
     ph_airport_code q = Some (toUpperCase icao)).
Proof.
  intros Hown Ho Hi Hp Hx Hrun.
  assert (EA : put_airport r st = (inr (Some (toUpperCase icao)), st)).
  { unfold put_airport. rewrite Ho, Hp, Hi. cbn [negb unwrap].
    unfold insert_airport, bind, read, ret. cbn [ap_icao_code]. rewrite Hx. reflexivity. }
  destruct (put_photo_shape st uid pid r p resp st' Hown Hrun) as
    [EA' | (code & st1 & fin & st2 & EA' & ER & -> & ->)]; rewrite EA in EA'; [discriminate|].
  injection EA' as <- <-.
  split; [reflexivity|]. split.
  - rewrite after_cleanup_airports. cbn [after_update db_airports].
    pose proof (put_resolve_airports r (ph_uuid_rh p) st) as A. rewrite ER in A. exact A.
  - intros q Hq Hid Hu. rewrite after_cleanup_photos in Hq. cbn [after_update db_photos] in Hq.
    apply in_map_upd in Hq; auto. destruct Hq as [q0 [_ [_ [_ ->]]]].
    reflexivity.
Qed.

(** X6. An update without a registration reference or registration text keeps
    the registration and airframe tables and the photo's reference. *)
Theorem put_metadata_only_keeps_registration (st : DB) (uid pid : Z) (r : PutReq) (p : Photo)
  (resp : Resp) (st' : DB) :
  owned_photos pid uid st = [p] ->
  pu_uuid_rh r = None -> str_truthy (pu_registration r) = false ->
  run (put_photo uid pid r) st = (resp, st') ->
  db_rhs st' = db_rhs st /\ db_sas st' = db_sas st /\
  (forall q, In q (db_photos st') -> ph_id q = pid -> ph_user_id q = uid ->
     ph_uuid_rh q = ph_uuid_rh p).
Proof.
  intros Hown Hu Hreg Hrun.
  pose proof (put_airport_spec r st) as PA.
  destruct (put_photo_shape st uid pid r p resp st' Hown Hrun) as
    [EA | (code & st1 & fin & st2 & EA & ER & _ & ->)]; rewrite EA in PA;
    destruct PA as (P1 & R1 & S1 & _).
  - repeat split; auto. intros q Hq Hid Hq2. rewrite P1 in Hq.
    rewrite (owned_unique pid uid st p q Hown Hq Hid Hq2). reflexivity.
  - unfold put_resolve_rh in ER. rewrite Hu, Hreg in ER. unfold ret in ER.
    injection ER as <- <-.
    unfold after_cleanup. rewrite opt_eqb_refl. cbn [negb after_update db_rhs db_sas db_photos].
    repeat split; auto.
    intros q Hq Hid Hq2. apply in_map_upd in Hq; auto.
    destruct Hq as [q0 [Hq0 [Hid0 [Hu0 ->]]]]. rewrite P1 in Hq0.
    rewrite (owned_unique pid uid st p q0 Hown Hq0 Hid0 Hu0).
    unfold apply_update, put_updates. rewrite opt_eqb_refl. reflexivity.
Qed.

(** X1. A delete of an owned photo answers 200 and removes every photo row
    with that id; airports and aircraft types are untouched. *)
Theorem delete_removes_photo (st : DB) (uid pid : Z) (p : Photo) :
  owned_photos pid uid st = [p] ->
  fst (run (delete_photo uid pid) st) =
    mkResp 200 (BMessage "Photo deleted and cleanup performed successfully") /\
  db_photos (snd (run (delete_photo uid pid) st)) =
    filter (fun q => negb (ph_id q =? pid)) (db_photos st) /\
  db_airports (snd (run (delete_photo uid pid) st)) = db_airports st /\
  db_types (snd (run (delete_photo uid pid) st)) = db_types st.
Proof.
  intros Hown. unfold run, delete_photo, bind, select_owned_photo, read.
  rewrite Hown. cbn [single]. unfold delete_photo_row, write.
  cbn [fst snd set_photos db_photos db_rhs db_sas db_types db_airports db_clock db_log].
  set (st1 := mkDB _ _ _ _ _ _ _).
  destruct (ph_uuid_rh p) as [u|].
  - pose proof (cleanup_rh_ok u st1) as C. pose proof (cleanup_rh_photos u st1) as CP.
    pose proof (cleanup_rh_airports u st1) as [CA CT].
    destruct (cleanup_rh u st1) as [c st2]. cbn in C, CP, CA, CT. subst c.
    unfold ret. cbn. auto.
  - unfold ret. cbn. auto.
Qed.

Lemma refs_drop_photos (f : Photo -> bool) ps rs ss :
  refs_ok_lists ps rs ss -> refs_ok_lists (filter f ps) rs ss.
Proof.
  intros [HP HR]. split; auto. intros p Hp. apply filter_In in Hp. apply HP; tauto.
Qed.

Lemma refs_drop_rh u ps rs ss :
  refs_ok_lists ps rs ss -> ~ (exists p, In p ps /\ ph_uuid_rh p = Some u) ->
  refs_ok_lists ps (filter (fun r => negb (rh_uuid r =? u)) rs) ss.
Proof.
  intros [HP HR] Hn. split.
  - intros p Hp u' Hu'. destruct (HP p Hp u' Hu') as [r [Hr Hru]].
    exists r. split; auto. apply filter_In. split; auto.
    destruct (rh_uuid r =? u) eqn:E; auto. apply Z.eqb_eq in E.
    exfalso. apply Hn. exists p. split; auto. congruence.
  - intros r Hr. apply filter_In in Hr. apply HR. tauto.
Qed.

Lemma refs_drop_sa s ps rs ss :
  refs_ok_lists ps rs ss -> ~ (exists r, In r rs /\ rh_uuid_sa r = Some s) ->
  refs_ok_lists ps rs (filter (fun a => negb (sa_uuid a =? s)) ss).
Proof.
  intros [HP HR] Hn. split; auto.
  intros r Hr s' Hs'. destruct (HR r Hr s' Hs') as [a [Ha Has]].
  exists a. split; auto. apply filter_In. split; auto.
  destruct (sa_uuid a =? s) eqn:E; auto. apply Z.eqb_eq in E.
  exfalso. apply Hn. exists r. split; auto. congruence.
Qed.

Lemma cleanup_refs_ok u st : refs_ok st -> refs_ok (snd (cleanup_rh u st)).
Proof.
  intros H. unfold refs_ok in *.
  unfold cleanup_rh, bind, count_photos_with_rh, read. cbn [fst snd].
  destruct (Nat.eqb (List.length (photos_with_rh u (db_photos st))) 0) eqn:E0;
    [|exact H].
  apply Nat.eqb_eq, length_zero_iff_nil in E0. unfold photos_with_rh in E0.
  apply (no_ref_iff ph_uuid_rh) in E0.
  unfold select_rh, read, delete_rh, write. cbn [fst snd set_rhs db_photos db_rhs db_sas
    db_types db_airports db_clock db_log].
  pose proof (refs_drop_rh u _ _ _ H E0) as H1.
  set (rs := filter (fun r => negb (rh_uuid r =? u)) (db_rhs st)) in *.
  destruct (single (rhs_with_uuid u (db_rhs st))) as [rh|]; [|exact H1].
  destruct (rh_uuid_sa rh) as [s|]; [|exact H1].
  unfold count_rhs_with_sa, read. cbn [fst snd db_rhs].
  destruct (Nat.eqb (List.length (rhs_with_sa s rs)) 0) eqn:E1; [|exact H1].
  apply Nat.eqb_eq, length_zero_iff_nil in E1. unfold rhs_with_sa in E1.
  apply (no_ref_iff rh_uuid_sa) in E1.
  unfold delete_sa, write. cbn [fst snd set_sas db_photos db_rhs db_sas].
  apply refs_drop_sa; auto.
Qed.

Lemma refs_extend ps rs ss rs' ss' :
  refs_ok_lists ps rs ss ->
  (forall r, In r rs' -> forall s, rh_uuid_sa r = Some s ->
     exists a, In a (ss ++ ss') /\ sa_uuid a = s) ->
  refs_ok_lists ps (rs ++ rs') (ss ++ ss').
Proof.
  intros [HP HR] H'. split.
  - intros p Hp u Hu. destruct (HP p Hp u Hu) as [r [Hr Hru]].
    exists r. split; auto. apply in_or_app; auto.
  - intros r Hr s Hs. apply in_app_or in Hr. destruct Hr as [Hr|Hr]; [|eauto].
    destruct (HR r Hr s Hs) as [a [Ha Has]]. exists a. split; auto. apply in_or_app; auto.
Qed.

(** The airframe/registration pair inserted by a resolution keeps the
    references intact. *)
Lemma insert_pair_refs t d reg al st sa st1 rh st2 :
  refs_ok st -> insert_sa t d st = (inr sa, st1) ->
  insert_rh (sa_uuid sa) reg al st1 = (inr rh, st2) ->
  refs_ok st2 /\ db_photos st2 = db_photos st /\ db_airports st2 = db_airports st /\
  db_types st2 = db_types st /\ In rh (db_rhs st2).
Proof.
  intros H E1 E2.
  unfold insert_sa, bind, read, write, ret in E1. cbn in E1. injection E1 as <- <-.
  unfold insert_rh, bind, read, write, ret in E2. cbn in E2. injection E2 as <- <-.
  unfold refs_ok in *. cbn. split; [|split; [reflexivity|split; [reflexivity|split; [reflexivity|]]]].
  - apply refs_extend; auto.
    intros r [<-|[]] s Hs. cbn in Hs. injection Hs as <-.
    eexists. split; [apply in_or_app; right; left; reflexivity|reflexivity].
  - apply in_or_app. right. left. reflexivity.
Qed.

Lemma put_resolve_refs r old st res st2 :
  refs_ok st -> put_resolve_rh r old st = (res, st2) ->
  refs_ok st2 /\ db_photos st2 = db_photos st /\ db_airports st2 = db_airports st /\
  (forall x, In x (db_rhs st) -> In x (db_rhs st2)) /\
  exists fin, res = inr fin /\
    (fin = old \/ fin = pu_uuid_rh r \/
     exists rh, In rh (db_rhs st2) /\ fin = Some (rh_uuid rh)).
Proof.
  intros H E. unfold put_resolve_rh in E.
  destruct (pu_uuid_rh r) as [n|] eqn:En.
  - destruct (negb _); unfold ret in E; injection E as <- <-;
      refine (conj H (conj eq_refl (conj eq_refl (conj (fun x h => h) _)))); eauto.
  - destruct (str_truthy (pu_registration r));
      [|unfold ret in E; injection E as <- <-;
        refine (conj H (conj eq_refl (conj eq_refl (conj (fun x h => h) _)))); eauto].
    destruct (str_truthy (pu_aircraft_type_id r)).
    + unfold bind in E.
      destruct (insert_sa _ _ st) as [[e|sa] st1] eqn:E1.
      { unfold insert_sa, bind, read, write, ret in E1. discriminate. }
      destruct (insert_rh _ _ _ st1) as [[e|rh] st3] eqn:E2.
      { unfold insert_rh, bind, read, write, ret in E2. discriminate. }
      unfold ret in E. injection E as <- <-.
      destruct (insert_pair_refs _ _ _ _ _ _ _ _ _ H E1 E2) as (R & P & A & _ & I).
      refine (conj R (conj P (conj A (conj _ _)))).
      * intros x Hx.
        unfold insert_sa, bind, read, write, ret in E1. cbn in E1. injection E1 as <- <-.
        unfold insert_rh, bind, read, write, ret in E2. cbn in E2. injection E2 as <- <-.
        cbn. apply in_or_app; auto.
      * eauto 8.
    + unfold bind, lookup_registration, read in E. cbn -[rhs_with_registration] in E.
      destruct (rhs_with_registration _ (db_rhs st)) as [|rh rest] eqn:Ef;
        cbn [firstn] in E; unfold ret in E; injection E as <- <-;
        refine (conj H (conj eq_refl (conj eq_refl (conj (fun x h => h) _)))); eauto.
      eexists. split; [reflexivity|]. right. right. exists rh. split; auto.
      assert (Hin : In rh (rhs_with_registration (toUpperCase (unwrap (pu_registration r))) (db_rhs st)))
        by (rewrite Ef; left; reflexivity).
      unfold rhs_with_registration in Hin. apply filter_In in Hin. tauto.
Qed.

Lemma after_cleanup_refs old fin st : refs_ok st -> refs_ok (after_cleanup old fin st).
Proof.
  intros H. unfold after_cleanup. destruct (negb _); auto. destruct old; auto.
  apply cleanup_refs_ok; auto.
Qed.

(** X2. A delete keeps the references of the store intact: every photo
    reference names a stored registration and every registration reference a
    stored airframe. *)
Theorem delete_keeps_refs (st : DB) (uid pid : Z) (resp : Resp) (st' : DB) :
  refs_ok st -> run (delete_photo uid pid) st = (resp, st') -> refs_ok st'.
Proof.
  intros H Hrun.
  unfold run, delete_photo, bind, select_owned_photo, read in Hrun. cbn [fst snd] in Hrun.
  destruct (single (owned_photos pid uid st)) as [p|].
  2:{ unfold halt in Hrun. injection Hrun as _ <-. exact H. }
  unfold delete_photo_row, write in Hrun. cbn [fst snd] in Hrun.
  set (st1 := mkDB _ _ _ _ _ _ _) in Hrun.
  assert (H1 : refs_ok st1) by (apply refs_drop_photos; exact H).
  destruct (ph_uuid_rh p) as [u|].
  - pose proof (cleanup_rh_ok u st1) as Cok. pose proof (cleanup_refs_ok u st1 H1) as CR.
    destruct (cleanup_rh u st1) as [x st2]. cbn in Cok, CR. subst x.
    unfold ret in Hrun. injection Hrun as _ <-. exact CR.
  - unfold ret in Hrun. injection Hrun as _ <-. exact H1.
Qed.

(** X7. An update keeps the references of the store intact, provided an
    explicit [uuid_rh] names a stored registration. *)
Theorem put_keeps_refs (st : DB) (uid pid : Z) (r : PutReq) (resp : Resp) (st' : DB) :
  refs_ok st ->
  (forall u, pu_uuid_rh r = Some u -> exists x, In x (db_rhs st) /\ rh_uuid x = u) ->
  run (put_photo uid pid r) st = (resp, st') -> refs_ok st'.
Proof.
  intros H Hu Hrun.
  destruct (owned_photos pid uid st) as [|p [|p2 ps]] eqn:Hown.
  1,3: unfold run, put_photo, bind, select_owned_photo, read in Hrun;
       rewrite Hown in Hrun; cbn in Hrun; injection Hrun as _ <-; exact H.
  pose proof (put_airport_spec r st) as PA.
  destruct (put_photo_shape st uid pid r p resp st' Hown Hrun)
    as [EA | (code & st1 & fin & st2 & EA & ER & _ & ->)];
    rewrite EA in PA; destruct PA as (P1 & R1 & S1 & _).
  { unfold refs_ok. rewrite P1, R1, S1. exact H. }
  assert (H1 : refs_ok st1) by (unfold refs_ok; rewrite P1, R1, S1; exact H).
  destruct (put_resolve_refs r (ph_uuid_rh p) st1 _ _ H1 ER)
    as (H2 & P2 & _ & Sub & fin' & Ef & Hfin).
  injection Ef as <-.
  apply after_cleanup_refs.
  destruct H2 as [HP HR]. unfold refs_ok, after_update. cbn. split; auto.
  assert (Hp : In p (db_photos st2)).
  { rewrite P2, P1. assert (In p (owned_photos pid uid st)) by (rewrite Hown; left; auto).
    unfold owned_photos in H0. apply filter_In in H0. tauto. }
  intros q Hq u Hqu. apply in_map_iff in Hq. destruct Hq as [q0 [<- Hq0]].
  unfold upd_row in Hqu.
  destruct ((ph_id q0 =? pid) && (ph_user_id q0 =? uid)) eqn:Ek; [|eauto].
  unfold apply_update, put_updates in Hqu. cbn in Hqu.
  destruct (negb (opt_eqb fin (ph_uuid_rh p))); [|eauto].
  destruct Hfin as [-> | [-> | [rh [Hrh ->]]]].
  - eauto.
  - destruct (Hu u Hqu) as [x [Hx Hxu]]. exists x. split; auto.
    apply Sub. rewrite R1. exact Hx.
  - injection Hqu as <-. eauto.
Qed.

Lemma post_resolve_refs r d st res st2 :
  refs_ok st -> post_resolve_rh r d st = (res, st2) ->
  refs_ok st2 /\ db_photos st2 = db_photos st /\
  (forall x, In x (db_rhs st) -> In x (db_rhs st2)) /\
  (forall fin, res = inr fin ->
    fin = pr_uuid_rh r \/ exists rh, In rh (db_rhs st2) /\ fin = Some (rh_uuid rh)).
Proof.
  intros H E. unfold post_resolve_rh in E.
  destruct (pr_uuid_rh r) as [n|] eqn:En.
  { unfold ret in E. injection E as <- <-.
    refine (conj H (conj eq_refl (conj (fun x h => h) _))). intros fin Hf.
    injection Hf as <-. auto. }
  destruct (str_truthy (pr_aircraft_type_id r)).
  - unfold bind at 1 in E.
    destruct (insert_sa _ _ st) as [[e|sa] st1] eqn:E1.
    { unfold insert_sa, bind, read, write, ret in E1. discriminate. }
    assert (HS : refs_ok st1 /\ db_photos st1 = db_photos st /\ db_rhs st1 = db_rhs st).
    { unfold insert_sa, bind, read, write, ret in E1. cbn in E1. injection E1 as <- <-.
      unfold refs_ok in *. cbn. split; [|split; reflexivity].
      rewrite <- (app_nil_r (db_rhs st)). apply refs_extend; auto. intros ? []. }
    destruct HS as (HS & PS & RS).
    destruct (pr_registration r) as [reg|]; cbn [upper_or_throw] in E.
    + unfold ret, bind in E.
      destruct (insert_rh _ _ _ st1) as [[e|rh] st3] eqn:E2.
      { unfold insert_rh, bind, read, write, ret in E2. discriminate. }
      injection E as <- <-.
      destruct (insert_pair_refs _ _ _ _ _ _ _ _ _ H E1 E2) as (R & P & _ & _ & I).
      refine (conj R (conj P (conj _ _))).
      * intros x Hx.
        unfold insert_rh, bind, read, write, ret in E2. cbn in E2. injection E2 as <- <-.
        cbn. apply in_or_app. left. rewrite RS. exact Hx.
      * intros fin Hf. injection Hf as <-. eauto.
    + unfold bind, halt in E. injection E as <- <-.
      refine (conj HS (conj PS (conj _ _))); [rewrite RS; auto|discriminate].
  - destruct (pr_registration r) as [reg|]; cbn [upper_or_throw] in E.
    + unfold bind, ret, lookup_registration, read in E. cbn -[rhs_with_registration] in E.
      destruct (rhs_with_registration _ (db_rhs st)) as [|rh rest] eqn:Ef;
        cbn [firstn] in E; unfold halt, ret in E; injection E as <- <-;
        refine (conj H (conj eq_refl (conj (fun x h => h) _))); [discriminate|].
      intros fin Hf. injection Hf as <-. right. exists rh. split; auto.
      assert (Hin : In rh (rhs_with_registration (toUpperCase reg) (db_rhs st)))
        by (rewrite Ef; left; reflexivity).
      unfold rhs_with_registration in Hin. apply filter_In in Hin. tauto.
    + unfold bind, halt in E. injection E as <- <-.
      refine (conj H (conj eq_refl (conj (fun x h => h) _))). discriminate.
Qed.

(** X9. A create keeps the references of the store intact, provided an
    explicit [uuid_rh] names a stored registration. *)
Theorem post_keeps_refs (st : DB) (uid : Z) (url : string) (r : PostReq) (resp : Resp) (st' : DB) :
  refs_ok st ->
  (forall u, pr_uuid_rh r = Some u -> exists x, In x (db_rhs st) /\ rh_uuid x = u) ->
  run (post_photo uid url r) st = (resp, st') -> refs_ok st'.
Proof.
  intros H Hu Hrun. unfold run, post_photo in Hrun.
  destruct (pr_has_file r); cbn [negb] in Hrun.
  2:{ unfold halt in Hrun. injection Hrun as _ <-. exact H. }
  pose proof (post_airport_spec r st) as PA.
  unfold bind at 1 in Hrun.
  destruct (post_airport r st) as [[ra|code] st1] eqn:EA;
    destruct PA as (P1 & R1 & S1 & _).
  { injection Hrun as _ <-. unfold refs_ok. rewrite P1, R1, S1. exact H. }
  assert (H1 : refs_ok st1) by (unfold refs_ok; rewrite P1, R1, S1; exact H).
  unfold bind at 1 in Hrun.
  destruct (post_resolve_rh r _ st1) as [res st2] eqn:ER.
  destruct (post_resolve_refs _ _ _ _ _ H1 ER) as (H2 & P2 & Sub & Hfin).
  destruct res as [ra|fin].
  { injection Hrun as _ <-. exact H2. }
  unfold insert_photo, bind, read, write, ret in Hrun. cbn in Hrun.
  injection Hrun as _ <-.
  destruct H2 as [HP HR]. unfold refs_ok. cbn. split; auto.
  intros q Hq u Hqu. apply in_app_or in Hq. destruct Hq as [Hq|[<-|[]]]; eauto.
  cbn in Hqu. destruct (Hfin fin eq_refl) as [-> | [rh [Hrh ->]]].
  - destruct (Hu u Hqu) as [x [Hx Hxu]]. exists x. split; auto. apply Sub. rewrite R1. exact Hx.
  - injection Hqu as <-. eauto.
Qed.

Lemma post_resolve_photos r d st :
  db_photos (snd (post_resolve_rh r d st)) = db_photos st /\
  db_airports (snd (post_resolve_rh r d st)) = db_airports st /\
  (forall resp, fst (post_resolve_rh r d st) = inl resp -> status resp = 404 \/ status resp = 500).
Proof.
  unfold post_resolve_rh, insert_sa, insert_rh, lookup_registration, upper_or_throw,
    bind, read, write, ret, halt.
  split_matches; (split; [reflexivity|split; [reflexivity|]]); try discriminate;
    intros resp Hr; injection Hr as <-; cbn; auto.
Qed.

Lemma fresh_photo_not_in st : ~ In (fresh_photo_id st) (map ph_id (db_photos st)).
Proof.
  unfold fresh_photo_id. intros H. apply max_list_ge in H. lia.
Qed.

(** X8. A create either answers 201 with the new photo, appended with a fresh
    id, the user, the image URL and the metadata or null, or leaves the photo
    table unchanged. *)
Theorem post_created_or_unchanged (st : DB) (uid : Z) (url : string) (r : PostReq)
  (resp : Resp) (st' : DB) :
  run (post_photo uid url r) st = (resp, st') ->
  (status resp <> 201 -> db_photos st' = db_photos st) /\
  (status resp = 201 ->
   exists p, body resp = BPhoto p /\ db_photos st' = db_photos st ++ [p] /\
     ~ In (ph_id p) (map ph_id (db_photos st)) /\
     ph_user_id p = uid /\ ph_image_url p = url /\
     ph_taken_at p = or_null (f_taken_at (pr_fields r)) /\
     ph_shutter_speed p = or_null (f_shutter_speed (pr_fields r)) /\
     ph_iso p = or_null (f_iso (pr_fields r)) /\
     ph_aperture p = or_null (f_aperture (pr_fields r)) /\
     ph_camera_model p = or_null (f_camera_model (pr_fields r)) /\
     ph_focal_length p = or_null (f_focal_length (pr_fields r))).
Proof.
  intros Hrun. unfold run, post_photo in Hrun.
  destruct (pr_has_file r); cbn [negb] in Hrun.
  2:{ unfold halt in Hrun. injection Hrun as <- <-. split; [auto|discriminate]. }
  pose proof (post_airport_spec r st) as PA.
  unfold bind at 1 in Hrun.
  destruct (post_airport r st) as [[ra|code] st1] eqn:EA;
    destruct PA as (P1 & _ & _ & Err1).
  { injection Hrun as <- <-. split; [auto|].
    intros H201. destruct (Err1 _ eq_refl) as [E|E]; rewrite E in H201; discriminate. }
  unfold bind at 1 in Hrun.
  pose proof (post_resolve_photos r (str_or_null (pr_manufactured_date r)) st1) as (P2 & _ & Err2).
  destruct (post_resolve_rh r _ st1) as [[ra|fin] st2] eqn:ER; cbn [fst snd] in P2, Err2.
  { injection Hrun as <- <-. split; [congruence|].
    intros H201. destruct (Err2 _ eq_refl) as [E|E]; rewrite E in H201; discriminate. }
  unfold insert_photo, bind, read, write, ret in Hrun. cbn -[fresh_photo_id] in Hrun.
  injection Hrun as <- <-. cbn -[fresh_photo_id].
  split; [intros C; exfalso; apply C; reflexivity|intros _].
  eexists. split; [reflexivity|]. split; [rewrite P2, P1; reflexivity|].
  split; [rewrite <- P1, <- P2; apply fresh_photo_not_in|].
  repeat split; reflexivity.
Qed.

(** X10. A create with a new [other] airport and an unknown registration
    answers 404 but keeps the inserted airport row. *)
Theorem post_not_found_keeps_airport (st : DB) (uid : Z) (url : string) (r : PostReq)
  (icao reg : string) (resp : Resp) (st' : DB) :
  pr_has_file r = true -> is_other (pr_airport_code r) = true ->
  pr_airport_icao_code r = Some icao ->
  airport_fields_present (pr_airport_icao_code r) (pr_airport_name r)
    (pr_airport_latitude r) (pr_airport_longitude r) = true ->
  existsb (fun x => String.eqb (ap_icao_code x) (toUpperCase icao)) (db_airports st) = false ->
  pr_uuid_rh r = None -> str_truthy (pr_aircraft_type_id r) = false ->
  pr_registration r = Some reg ->
  rhs_with_registration (toUpperCase reg) (db_rhs st) = [] ->
  run (post_photo uid url r) st = (resp, st') ->
  resp = registration_not_found /\
  db_airports st' = db_airports st ++
    [mkAirport (toUpperCase icao) (unwrap (pr_airport_name r))
       (unwrap (pr_airport_latitude r)) (unwrap (pr_airport_longitude r))] /\
  db_photos st' = db_photos st /\ db_rhs st' = db_rhs st /\ db_sas st' = db_sas st.
Proof.
  intros Hf Ho Hi Hp Hfree Hu Ht Hreg Hnf Hrun.
  unfold run, post_photo in Hrun. rewrite Hf in Hrun. cbn [negb] in Hrun.
  unfold post_airport in Hrun. rewrite Ho, Hp, Hi in Hrun. cbn [negb unwrap] in Hrun.
  unfold bind at 1 2, insert_airport, bind, read in Hrun. cbn [fst snd ap_icao_code] in Hrun.
  rewrite Hfree in Hrun.
  unfold write, ret in Hrun. cbn [fst snd] in Hrun.
  unfold post_resolve_rh in Hrun. rewrite Hu, Ht, Hreg in Hrun.
  cbn [upper_or_throw] in Hrun. unfold ret, lookup_registration, read in Hrun.
  cbn -[toUpperCase rhs_with_registration insert_photo] in Hrun.
  rewrite Hnf in Hrun. cbn [firstn] in Hrun. unfold halt in Hrun.
  injection Hrun as <- <-. cbn. repeat split; reflexivity.
Qed.

(** X11. A create with an image, an aircraft type and no registration
    answers 500 but keeps the inserted airframe row; only an [other]
    airport rejected before that step (400 or 500) leaves the store as it
    was. *)
Theorem post_type_without_registration_keeps_aircraft (st : DB) (uid : Z) (url : string)
  (r : PostReq) (resp : Resp) (st' : DB) :
  pr_has_file r = true ->
  pr_uuid_rh r = None -> str_truthy (pr_aircraft_type_id r) = true ->
  pr_registration r = None ->
  run (post_photo uid url r) st = (resp, st') ->
  (status resp = 500 /\
   (exists sa, db_sas st' = db_sas st ++ [sa] /\
      sa_icao_type sa = unwrap (pr_aircraft_type_id r) /\
      ~ In (sa_uuid sa) (map sa_uuid (db_sas st))) /\
   db_photos st' = db_photos st /\ db_rhs st' = db_rhs st) \/
  (is_other (pr_airport_code r) = true /\ st' = st /\
   (resp = missing_airport_fields \/ status resp = 500)).
Proof.
  intros Hf Hu Ht Hreg Hrun.
  unfold run, post_photo in Hrun. rewrite Hf in Hrun. cbn [negb] in Hrun.
  unfold bind at 1 in Hrun.
  destruct (post_airport r st) as [[ra|code] st1] eqn:EA.
  { right. destruct (post_airport_inl _ _ _ _ EA) as (Ho & -> & Hra).
    injection Hrun as <- <-. auto. }
  left. pose proof (post_airport_spec r st) as PA. rewrite EA in PA.
  destruct PA as (P1 & R1 & S1 & _).
  unfold post_resolve_rh in Hrun. rewrite Hu, Ht in Hrun.
  unfold bind at 1 2, insert_sa, bind, read, write, ret in Hrun.
  cbn -[fresh_sa_uuid] in Hrun. rewrite Hreg in Hrun. cbn [upper_or_throw] in Hrun.
  unfold halt in Hrun. injection Hrun as <- <-. cbn -[fresh_sa_uuid].
  rewrite <- P1, <- R1, <- S1.
  split; [reflexivity|]. split; [|split; reflexivity].
  eexists. split; [reflexivity|]. split; [reflexivity|]. apply fresh_sa_not_in.
Qed.

Lemma join_base_rh_sa st p row :
  join_base st p = Some row -> join_rh_sa st p = Some (row_rh row, row_sa row).
Proof.
  unfold join_base. destruct (join_rh_sa st p) as [[rh sa]|]; [|discriminate].
  destruct (find _ _); [|discriminate]. intros H. injection H as <-. reflexivity.
Qed.

Lemma base_rows_le_count fp st :
  Z.of_nat (List.length (base_rows fp st)) <= count_rows fp st.
Proof.
  unfold base_rows, count_rows. apply Nat2Z.inj_le.
  induction (db_photos st) as [|p ps IH]; cbn [flat_map filter]; [cbn; lia|].
  rewrite length_app.
  destruct (join_base st p) as [row|] eqn:E.
  - rewrite (join_base_rh_sa _ _ _ E).
    destruct (photo_filter fp p (row_rh row) (row_sa row)); cbn; lia.
  - destruct (join_rh_sa st p) as [[rh sa]|]; [destruct (photo_filter _ _ _ _)|]; cbn; lia.
Qed.

Lemma length_insert_by tb x l : List.length (insert_by tb x l) = S (List.length l).
Proof.
  induction l as [|y l IH]; cbn; auto. destruct (tb _ _); cbn; auto.
Qed.

Lemma length_sort_rows tb l : List.length (sort_rows tb l) = List.length l.
Proof.
  induction l as [|x l IH]; cbn; auto. rewrite length_insert_by. auto.
Qed.

(** X12. The total of [/my-photos/random] is never below the total of
    [/my-photos] for the same filters. *)
Theorem random_total_ge_listing_total (taken_before : jsval -> jsval -> bool) (uid : Z)
  (page_q limit_q : option Z) (search : string) (filt : list string) (k : Z) (st : DB) :
  mp_total (my_photos taken_before uid page_q limit_q search filt st) <=
  rr_total (my_photos_random uid search filt k st).
Proof.
  unfold my_photos, my_photos_random. cbn [mp_total].
  rewrite length_sort_rows.
  pose proof (base_rows_le_count (mkFilter uid search filt) st) as H.
  destruct (count_rows _ st =? 0) eqn:E; cbn [rr_total].
  - apply Z.eqb_eq in E. lia.
  - exact H.
Qed.

(** X13. When between 1 and 5 photos are counted, [/my-photos/random] returns
    all listed photos from offset 0. *)
Theorem random_small_count_returns_all (uid : Z) (search : string) (filt : list string)
  (k : Z) (st : DB) :
  0 < count_rows (mkFilter uid search filt) st <= 5 ->
  rr_data (my_photos_random uid search filt k st) = base_rows (mkFilter uid search filt) st /\
  rr_offset (my_photos_random uid search filt k st) = Some 0.
Proof.
  intros Hc. pose proof (base_rows_le_count (mkFilter uid search filt) st) as H.
  unfold my_photos_random, random_offset. cbn zeta.
  replace (count_rows _ st =? 0) with false by (symmetry; apply Z.eqb_neq; lia).
  replace (5 <? count_rows _ st) with false by (symmetry; apply Z.ltb_ge; lia).
  cbn [rr_data rr_offset]. split; [|reflexivity].
  unfold range. cbn [Z.to_nat skipn]. apply firstn_all2.
  cbn. lia.
Qed.

(** X14. The search and type filters only narrow the unfiltered listing of
    the user's photos, keeping its order. *)
Theorem base_rows_filter_narrows (fp : FilterParams) (st : DB) :
  base_rows fp st =
  filter (fun row => photo_filter fp (row_photo row) (row_rh row) (row_sa row))
    (base_rows (mkFilter (fp_userId fp) "" []) st).
Proof.
  unfold base_rows. induction (db_photos st) as [|p ps IH]; [reflexivity|].
  cbn [flat_map]. rewrite filter_app, <- IH. f_equal.
  destruct (join_base st p) as [row|] eqn:E; [|reflexivity].
  pose proof (join_base_photo _ _ _ E) as Hp.
  assert (Hu : photo_filter (mkFilter (fp_userId fp) "" []) p (row_rh row) (row_sa row)
               = (ph_user_id p =? fp_userId fp)).
  { unfold photo_filter. cbn. rewrite !andb_true_r. reflexivity. }
  rewrite Hu.
  destruct (ph_user_id p =? fp_userId fp) eqn:U; cbn [filter]; try rewrite Hp.
  - reflexivity.
  - unfold photo_filter. rewrite U. reflexivity.
Qed.

Lemma str_app_assoc (a b c : string) :
  String.append a (String.append b c) = String.append (String.append a b) c.
Proof. induction a as [|x a IH]; cbn; [reflexivity|]. rewrite IH. reflexivity. Qed.

Lemma is_prefix_app_inv p x y :
  is_prefix p (String.append x y) = true -> (String.length p <= String.length x)%nat ->
  is_prefix p x = true.
Proof.
  revert x. induction p as [|a p IH]; intros x H Hl; [reflexivity|].
  destruct x as [|b x]; cbn in Hl; [lia|].
  cbn in H |- *. apply andb_true_iff in H as [H1 H2]. rewrite H1. cbn.
  apply IH; auto. lia.
Qed.

Lemma index_split_contains sep s r :
  index_split sep s = Some r -> contains sep s = true.
Proof.
  revert r. induction s as [|c s IH]; intros r H; cbn in H; [discriminate|].
  cbn [contains]. destruct (is_prefix sep (String c s)); [reflexivity|].
  destruct (index_split sep s) as [r'|] eqn:E.
  - rewrite (IH r' eq_refl). apply orb_true_r.
  - discriminate.
Qed.

Lemma contains_cons p c s : contains p (String c s) = is_prefix p (String c s) || contains p s.
Proof. reflexivity. Qed.

Lemma index_split_first (A K : string) :
  contains ".com/" (String.append A ".com") = false ->
  index_split ".com/" (String.append A (String.append ".com/" K)) = Some (A, K).
Proof.
  induction A as [|c A IH]; intros H; [reflexivity|].
  change (String.append (String c A) ".com") with (String c (String.append A ".com")) in H.
  rewrite contains_cons in H. apply orb_false_iff in H as [H1 H2].
  change (String.append (String c A) (String.append ".com/" K))
    with (String c (String.append A (String.append ".com/" K))).
  cbn [index_split].
  assert (Hp : is_prefix ".com/" (String c (String.append A (String.append ".com/" K))) = false).
  { destruct (is_prefix ".com/" (String c (String.append A (String.append ".com/" K)))) eqn:E;
      [|reflexivity].
    rewrite <- H1. symmetry.
    apply (is_prefix_app_inv _ _ (String.append "/" K)).
    + change (String.append (String c (String.append A ".com")) (String.append "/" K))
        with (String c (String.append (String.append A ".com") (String.append "/" K))).
      rewrite <- str_app_assoc. exact E.
    + cbn. clear. induction A; cbn; lia. }
  rewrite Hp, (IH H2). reflexivity.
Qed.

(** X3. The key the delete route removes from S3 is the key the create route
    uploaded, when the bucket and region names and the key contain no
    [.com/]. *)
Theorem delete_key_of_upload (bucket region user_id fileName : string) :
  contains ".com/" (String.append "https://" (String.append bucket (String.append ".s3."
    (String.append region ".amazonaws.com")))) = false ->
  contains ".com/" (upload_key user_id fileName) = false ->
  delete_key (image_url_of bucket region user_id fileName) = Some (upload_key user_id fileName).
Proof.
  intros H1 H2.
  set (K := upload_key user_id fileName) in *.
  set (A := String.append "https://" (String.append bucket (String.append ".s3."
              (String.append region ".amazonaws")))).
  assert (HA : forall X, String.append A X = String.append "https://" (String.append bucket
            (String.append ".s3." (String.append region (String.append ".amazonaws" X))))).
  { intros X. unfold A. rewrite <- !str_app_assoc. reflexivity. }
  assert (H1' : contains ".com/" (String.append A ".com") = false) by (rewrite HA; exact H1).
  assert (Hu : image_url_of bucket region user_id fileName = String.append A (String.append ".com/" K))
    by (rewrite HA; reflexivity).
  rewrite Hu. unfold delete_key, js_split.
  assert (HK : index_split ".com/" K = None).
  { destruct (index_split ".com/" K) as [r|] eqn:E; [|reflexivity].
    apply index_split_contains in E. congruence. }
  replace (String.eqb (String.append A (String.append ".com/" K)) "") with false
    by (rewrite HA; reflexivity).
  destruct (String.length (String.append A (String.append ".com/" K))) as [|m] eqn:Hl.
  - rewrite HA in Hl. discriminate.
  - cbn [split_fuel]. rewrite index_split_first by exact H1'.
    destruct m; [rewrite HA in Hl; discriminate|].
    cbn [split_fuel]. rewrite HK. reflexivity.
Qed.

Lemma refs_okb_sound st : refs_okb st = true -> refs_ok st.
Proof.
  unfold refs_okb, refs_ok. intros H. apply andb_true_iff in H as [HP HR].
  rewrite forallb_forall in HP, HR. split.
  - intros p Hp u Hu. specialize (HP p Hp). rewrite Hu in HP.
    apply existsb_exists in HP as [x [Hx Hxu]]. apply Z.eqb_eq in Hxu. eauto.
  - intros r Hr s Hs. specialize (HR r Hr). rewrite Hs in HR.
    apply existsb_exists in HR as [x [Hx Hxs]]. apply Z.eqb_eq in Hxs. eauto.
Qed.

(** * Instances at concrete stores *)

Lemma demo_nodup : NoDup (map rh_uuid (db_rhs demo_db)).
Proof.
  cbn. constructor.
  - intros [H|[]]. discriminate H.
  - constructor; [intros []|constructor].
Qed.

Lemma delete_photo_cleanup_witness :
  owned_photos 10 1 demo_db = [photo10] /\
  ph_uuid_rh photo10 = Some (rh_uuid rh_n1) /\
  In rh_n1 (db_rhs demo_db) /\
  NoDup (map rh_uuid (db_rhs demo_db)) /\
  (let st' := snd (run (delete_photo 1 10) demo_db) in
   ((~ exists r, In r (db_rhs st') /\ rh_uuid r = rh_uuid rh_n1) <->
    (~ exists q, In q (db_photos st') /\ ph_uuid_rh q = Some (rh_uuid rh_n1))) /\
   (forall s, rh_uuid_sa rh_n1 = Some s ->
      (exists a, In a (db_sas demo_db) /\ sa_uuid a = s) ->
      (~ exists q, In q (db_photos st') /\ ph_uuid_rh q = Some (rh_uuid rh_n1)) ->
      ((~ exists a, In a (db_sas st') /\ sa_uuid a = s) <->
       (~ exists r, In r (db_rhs st') /\ rh_uuid_sa r = Some s))) /\
   ((exists q, In q (db_photos st') /\ ph_uuid_rh q = Some (rh_uuid rh_n1)) ->
      db_rhs st' = db_rhs demo_db /\ db_sas st' = db_sas demo_db)).
Proof.
  assert (H1 : owned_photos 10 1 demo_db = [photo10]) by reflexivity.
  assert (H2 : ph_uuid_rh photo10 = Some (rh_uuid rh_n1)) by reflexivity.
  assert (H3 : In rh_n1 (db_rhs demo_db)) by (simpl; auto).
  pose proof demo_nodup as H4.
  exact (conj H1 (conj H2 (conj H3 (conj H4
           (delete_photo_cleanup demo_db 1 10 photo10 rh_n1 H1 H2 H3 H4))))).
Defined.

Lemma put_photo_repoint_witness :
  owned_photos 10 1 demo_db = [photo10] /\
  ph_uuid_rh photo10 = Some (rh_uuid rh_n1) /\
  In rh_n1 (db_rhs demo_db) /\
  NoDup (map rh_uuid (db_rhs demo_db)) /\
  photos_with_rh (rh_uuid rh_n1) (db_photos demo_db) = [photo10] /\
  2 <> rh_uuid rh_n1 /\
  (let st' := snd (run (put_photo 1 10 (put_req no_fields (Some 2) None)) demo_db) in
   (exists q, In q (db_photos st') /\ ph_id q = 10 /\ ph_user_id q = 1 /\
              ph_uuid_rh q = Some 2) /\
   (exists pre post,
       db_log st' = db_log demo_db ++ pre ++ WUpdatePhoto 10 :: WDeleteRH (rh_uuid rh_n1) :: post /\
       forallb is_insert pre = true /\
       (post = [] \/ exists s, rh_uuid_sa rh_n1 = Some s /\ post = [WDeleteSA s])) /\
   (~ exists x, In x (db_rhs st') /\ rh_uuid x = rh_uuid rh_n1) /\
   (forall s, rh_uuid_sa rh_n1 = Some s -> (exists a, In a (db_sas demo_db) /\ sa_uuid a = s) ->
      ((~ exists a, In a (db_sas st') /\ sa_uuid a = s) <->
       (~ exists x, In x (db_rhs st') /\ rh_uuid_sa x = Some s))) /\
   (forall x, In x (db_rhs demo_db) -> rh_uuid x = 2 -> In x (db_rhs st')) /\
   (forall a, In a (db_sas demo_db) ->
      (exists x, In x (db_rhs st') /\ rh_uuid x = 2 /\ rh_uuid_sa x = Some (sa_uuid a)) ->
      In a (db_sas st')) /\
   ((exists x, In x (db_rhs st') /\ rh_uuid x = 2) \/
    pu_uuid_rh (put_req no_fields (Some 2) None) = Some 2)).
Proof.
  assert (H1 : owned_photos 10 1 demo_db = [photo10]) by reflexivity.
  assert (H2 : ph_uuid_rh photo10 = Some (rh_uuid rh_n1)) by reflexivity.
  assert (H3 : In rh_n1 (db_rhs demo_db)) by (simpl; auto).
  pose proof demo_nodup as H4.
  assert (H5 : photos_with_rh (rh_uuid rh_n1) (db_photos demo_db) = [photo10]) by reflexivity.
  assert (H6 : 2 <> rh_uuid rh_n1) by (simpl; lia).
  assert (Hq : let st' := snd (run (put_photo 1 10 (put_req no_fields (Some 2) None)) demo_db) in
               exists q, In q (db_photos st') /\ ph_id q = 10 /\ ph_user_id q = 1 /\
                         ph_uuid_rh q = Some 2).
  { vm_compute. eexists. split; [left; reflexivity|]. repeat split. }
  exact (conj H1 (conj H2 (conj H3 (conj H4 (conj H5 (conj H6 (conj Hq
           (put_photo_repoint demo_db 1 10 (put_req no_fields (Some 2) None) photo10 rh_n1 2
              H1 H2 H3 H4 H5 H6 Hq)))))))).
Defined.

Lemma post_type_fresh_pair_witness :
  let res := run (post_photo 1 "img" post_req_type) demo_db in
  pr_uuid_rh post_req_type = None /\
  pr_aircraft_type_id post_req_type = Some "B738" /\ "B738" <> "" /\
  res = (fst res, snd res) /\ status (fst res) = 201 /\
  exists sa rh p reg,
    db_sas (snd res) = db_sas demo_db ++ [sa] /\ ~ In (sa_uuid sa) (map sa_uuid (db_sas demo_db)) /\
    sa_icao_type sa = "B738" /\
    sa_manufactured_date sa = str_or_null (pr_manufactured_date post_req_type) /\
    db_rhs (snd res) = db_rhs demo_db ++ [rh] /\ ~ In (rh_uuid rh) (map rh_uuid (db_rhs demo_db)) /\
    pr_registration post_req_type = Some reg /\ rh_registration rh = toUpperCase reg /\
    rh_uuid_sa rh = Some (sa_uuid sa) /\ rh_airline rh = pr_airline_code post_req_type /\
    rh_is_current rh = true /\
    db_photos (snd res) = db_photos demo_db ++ [p] /\ ph_uuid_rh p = Some (rh_uuid rh) /\
    body (fst res) = BPhoto p.
Proof.
  intros res.
  assert (H1 : pr_uuid_rh post_req_type = None) by reflexivity.
  assert (H2 : pr_aircraft_type_id post_req_type = Some "B738") by reflexivity.
  assert (H3 : "B738" <> "") by discriminate.
  assert (H4 : res = (fst res, snd res)) by (vm_compute; reflexivity).
  assert (H5 : status (fst res) = 201) by (vm_compute; reflexivity).
  exact (conj H1 (conj H2 (conj H3 (conj H4 (conj H5
           (post_type_fresh_pair demo_db 1 "img" post_req_type "B738" (fst res) (snd res)
              H1 H2 H3 H4 H5)))))).
Defined.

Lemma registration_only_no_create_witness :
  let r := put_req no_fields None (Some "zzz") in
  let res := run (put_photo 1 10 r) demo_db in
  pu_uuid_rh r = None /\ str_truthy (pu_aircraft_type_id r) = false /\
  owned_photos 10 1 demo_db = [photo10] /\ res = (fst res, snd res) /\
  (forall x, In x (db_rhs (snd res)) -> In x (db_rhs demo_db)) /\
  (forall a, In a (db_sas (snd res)) -> In a (db_sas demo_db)) /\
  (forall reg, pu_registration r = Some reg ->
     rhs_with_registration (toUpperCase reg) (db_rhs demo_db) = [] ->
     (forall q, In q (db_photos (snd res)) -> ph_id q = 10 -> ph_user_id q = 1 ->
        ph_uuid_rh q = ph_uuid_rh photo10) /\
     (fst res = mkResp 200 (BMessage "Photo updated successfully") \/
      (is_other (pu_airport_code r) = true /\ fst res = missing_airport_fields /\
       snd res = demo_db))).
Proof.
  intros r res.
  assert (H1 : pu_uuid_rh r = None) by reflexivity.
  assert (H2 : str_truthy (pu_aircraft_type_id r) = false) by reflexivity.
  assert (H3 : owned_photos 10 1 demo_db = [photo10]) by reflexivity.
  assert (H4 : res = (fst res, snd res)) by (vm_compute; reflexivity).
  exact (conj H1 (conj H2 (conj H3 (conj H4
           (proj2 registration_only_no_create demo_db 1 10 r photo10 (fst res) (snd res)
              H1 H2 H3 H4))))).
Defined.

Lemma not_owned_no_mutation_witness :
  (forall p, In p (db_photos demo_db) -> ph_id p = 10 -> ph_user_id p <> 3) /\
  run (delete_photo 3 10) demo_db =
    (mkResp 404 (BError "Photo not found or access denied"), demo_db) /\
  run (put_photo 3 10 (put_req no_fields None None)) demo_db =
    (mkResp 404 (BError "Photo not found or unauthorized"), demo_db).
Proof.
  assert (H : forall p, In p (db_photos demo_db) -> ph_id p = 10 -> ph_user_id p <> 3).
  { intros p Hp. simpl in Hp. destruct Hp as [<-|[<-|[]]]; simpl; lia. }
  exact (conj H (not_owned_no_mutation demo_db 3 10 (put_req no_fields None None) H)).
Defined.

Lemma post_other_airport_witness :
  let r := post_req_other "kabc" in
  let res := run (post_photo 1 "img" r) demo_db in
  pr_has_file r = true /\ is_other (pr_airport_code r) = true /\ res = (fst res, snd res) /\
  (airport_fields_present (pr_airport_icao_code r) (pr_airport_name r)
     (pr_airport_latitude r) (pr_airport_longitude r) = false ->
   fst res = missing_airport_fields /\ snd res = demo_db) /\
  (forall icao, pr_airport_icao_code r = Some icao ->
   airport_fields_present (pr_airport_icao_code r) (pr_airport_name r)
     (pr_airport_latitude r) (pr_airport_longitude r) = true ->
   existsb (fun x => String.eqb (ap_icao_code x) (toUpperCase icao)) (db_airports demo_db) = true ->
   fst res = mkResp 500 (BError (String.append "Failed to insert airport: " (err_message airport_dup)))
   /\ snd res = demo_db) /\
  (forall icao, pr_airport_icao_code r = Some icao ->
   airport_fields_present (pr_airport_icao_code r) (pr_airport_name r)
     (pr_airport_latitude r) (pr_airport_longitude r) = true ->
   existsb (fun x => String.eqb (ap_icao_code x) (toUpperCase icao)) (db_airports demo_db) = false ->
   db_airports (snd res) = db_airports demo_db ++
     [mkAirport (toUpperCase icao) (unwrap (pr_airport_name r))
        (unwrap (pr_airport_latitude r)) (unwrap (pr_airport_longitude r))] /\
   (forall p, body (fst res) = BPhoto p -> ph_airport_code p = Some (toUpperCase icao))).
Proof.
  intros r res.
  assert (H1 : pr_has_file r = true) by reflexivity.
  assert (H2 : is_other (pr_airport_code r) = true) by reflexivity.
  assert (H3 : res = (fst res, snd res)) by (vm_compute; reflexivity).
  exact (conj H1 (conj H2 (conj H3
           (post_other_airport demo_db 1 "img" r (fst res) (snd res) H1 H2 H3)))).
Defined.

Lemma random_offset_below_max_witness :
  0 <= 2 ^ 52 < 2 ^ 53 /\ 5 < count_rows (mkFilter 1 "" []) six_photos_db /\
  exists off, rr_offset (my_photos_random 1 "" [] (2 ^ 52) six_photos_db) = Some off /\
    0 <= off < count_rows (mkFilter 1 "" []) six_photos_db - 5.
Proof.
  assert (H1 : 0 <= 2 ^ 52 < 2 ^ 53).
  { split; [apply Z.leb_le | apply Z.ltb_lt]; reflexivity. }
  assert (H2 : 5 < count_rows (mkFilter 1 "" []) six_photos_db) by (vm_compute; reflexivity).
  exact (conj H1 (conj H2 (random_offset_below_max 1 "" [] (2 ^ 52) six_photos_db H1 H2))).
Defined.

Lemma listing_own_photos_only_witness :
  let ps := db_photos demo_db ++ [photo_of 12 2 (Some 2)] in
  own_photos 1 ps = own_photos 1 (db_photos demo_db) /\
  my_photos (fun _ _ => true) 1 None None "" [] (set_photos ps demo_db) =
  my_photos (fun _ _ => true) 1 None None "" [] demo_db /\
  my_photos_random 1 "" [] 0 (set_photos ps demo_db) = my_photos_random 1 "" [] 0 demo_db.
Proof.
  intros ps.
  assert (H : own_photos 1 ps = own_photos 1 (db_photos demo_db)) by reflexivity.
  exact (conj H (proj2 (proj2 (listing_own_photos_only (fun _ _ => true) 1 None None "" [] 0))
                   demo_db ps H)).
Defined.

Lemma put_overwrites_metadata_witness :
  let r := put_req some_fields None None in
  let res := run (put_photo 1 10 r) demo_db in
  owned_photos 10 1 demo_db = [photo10] /\ res = (fst res, snd res) /\ status (fst res) = 200 /\
  (exists q, In q (db_photos (snd res)) /\ ph_id q = 10 /\ ph_user_id q = 1 /\
     ph_taken_at q = or_null (f_taken_at (pu_fields r)) /\
     ph_shutter_speed q = or_null (f_shutter_speed (pu_fields r)) /\
     ph_iso q = or_null (f_iso (pu_fields r)) /\
     ph_aperture q = or_null (f_aperture (pu_fields r)) /\
     ph_camera_model q = or_null (f_camera_model (pu_fields r)) /\
     ph_focal_length q = or_null (f_focal_length (pu_fields r))) /\
  (forall code old fin,
     u_fields (put_updates r code old fin) = fields_or_null (pu_fields r) /\
     (u_uuid_rh (put_updates r code old fin) = None <-> fin = old)).
Proof.
  intros r res.
  assert (H1 : owned_photos 10 1 demo_db = [photo10]) by reflexivity.
  assert (H2 : res = (fst res, snd res)) by (vm_compute; reflexivity).
  assert (H3 : status (fst res) = 200) by (vm_compute; reflexivity).
  exact (conj H1 (conj H2 (conj H3
           (put_overwrites_metadata demo_db 1 10 r photo10 (fst res) (snd res) H1 H2 H3)))).
Defined.

Lemma delete_key_of_upload_witness :
  contains ".com/" "https://photo-bucket.s3.eu-west-1.amazonaws.com" = false /\
  contains ".com/" (upload_key "u1" "ab12.jpg") = false /\
  delete_key (image_url_of "photo-bucket" "eu-west-1" "u1" "ab12.jpg") =
    Some "photos/u1/ab12.jpg".
Proof.
  split; [vm_compute; reflexivity|]. split; [vm_compute; reflexivity|].
  apply (delete_key_of_upload "photo-bucket" "eu-west-1" "u1" "ab12.jpg");
    vm_compute; reflexivity.
Defined.

Lemma put_keeps_photo_rows_witness :
  let res := run (put_photo 1 10 (put_req some_fields (Some 2) None)) demo_db in
  res = (fst res, snd res) /\
  map (fun q => (ph_id q, ph_user_id q, ph_image_url q)) (db_photos (snd res)) =
  map (fun q => (ph_id q, ph_user_id q, ph_image_url q)) (db_photos demo_db) /\
  (forall q, In q (db_photos demo_db) -> (ph_id q =? 10) && (ph_user_id q =? 1) = false ->
     In q (db_photos (snd res))).
Proof.
  intros res.
  assert (H : res = (fst res, snd res)) by (vm_compute; reflexivity).
  exact (conj H (put_keeps_photo_rows demo_db 1 10 (put_req some_fields (Some 2) None)
                   (fst res) (snd res) H)).
Defined.

Lemma put_duplicate_airport_accepted_witness :
  let r := put_req_other "kxyz" in
  let res := run (put_photo 1 10 r) demo_db in
  owned_photos 10 1 demo_db = [photo10] /\ is_other (pu_airport_code r) = true /\
  pu_airport_icao_code r = Some "kxyz" /\
  airport_fields_present (pu_airport_icao_code r) (pu_airport_name r)
    (pu_airport_latitude r) (pu_airport_longitude r) = true /\
  existsb (fun x => String.eqb (ap_icao_code x) (toUpperCase "kxyz")) (db_airports demo_db) = true /\
  res = (fst res, snd res) /\
  fst res = mkResp 200 (BMessage "Photo updated successfully") /\
  db_airports (snd res) = db_airports demo_db /\
  (forall q, In q (db_photos (snd res)) -> ph_id q = 10 -> ph_user_id q = 1 ->
     ph_airport_code q = Some (toUpperCase "kxyz")).
Proof.
  intros r res.
  assert (H1 : owned_photos 10 1 demo_db = [photo10]) by reflexivity.
  assert (H2 : is_other (pu_airport_code r) = true) by reflexivity.
  assert (H3 : pu_airport_icao_code r = Some "kxyz") by reflexivity.
  assert (H4 : airport_fields_present (pu_airport_icao_code r) (pu_airport_name r)
    (pu_airport_latitude r) (pu_airport_longitude r) = true) by reflexivity.
  assert (H5 : existsb (fun x => String.eqb (ap_icao_code x) (toUpperCase "kxyz"))
                 (db_airports demo_db) = true) by (vm_compute; reflexivity).
  assert (H6 : res = (fst res, snd res)) by (vm_compute; reflexivity).
  exact (conj H1 (conj H2 (conj H3 (conj H4 (conj H5 (conj H6
    (put_duplicate_airport_accepted demo_db 1 10 r photo10 "kxyz" (fst res) (snd res)
       H1 H2 H3 H4 H5 H6))))))).
Defined.

Lemma put_metadata_only_keeps_registration_witness :
  let r := put_req some_fields None None in
  let res := run (put_photo 1 10 r) demo_db in
  owned_photos 10 1 demo_db = [photo10] /\ pu_uuid_rh r = None /\
  str_truthy (pu_registration r) = false /\ res = (fst res, snd res) /\
  db_rhs (snd res) = db_rhs demo_db /\ db_sas (snd res) = db_sas demo_db /\
  (forall q, In q (db_photos (snd res)) -> ph_id q = 10 -> ph_user_id q = 1 ->
     ph_uuid_rh q = ph_uuid_rh photo10).
Proof.
  intros r res.
  assert (H1 : owned_photos 10 1 demo_db = [photo10]) by reflexivity.
  assert (H2 : pu_uuid_rh r = None) by reflexivity.
  assert (H3 : str_truthy (pu_registration r) = false) by reflexivity.
  assert (H4 : res = (fst res, snd res)) by (vm_compute; reflexivity).
  exact (conj H1 (conj H2 (conj H3 (conj H4
    (put_metadata_only_keeps_registration demo_db 1 10 r photo10 (fst res) (snd res)
       H1 H2 H3 H4))))).
Defined.

Lemma delete_removes_photo_witness :
  owned_photos 10 1 demo_db = [photo10] /\
  fst (run (delete_photo 1 10) demo_db) =
    mkResp 200 (BMessage "Photo deleted and cleanup performed successfully") /\
  db_photos (snd (run (delete_photo 1 10) demo_db)) =
    filter (fun q => negb (ph_id q =? 10)) (db_photos demo_db) /\
  db_airports (snd (run (delete_photo 1 10) demo_db)) = db_airports demo_db /\
  db_types (snd (run (delete_photo 1 10) demo_db)) = db_types demo_db.
Proof.
  assert (H1 : owned_photos 10 1 demo_db = [photo10]) by reflexivity.
  exact (conj H1 (delete_removes_photo demo_db 1 10 photo10 H1)).
Defined.

Lemma delete_keeps_refs_witness :
  let res := run (delete_photo 1 10) demo_db in
  refs_ok demo_db /\ res = (fst res, snd res) /\ refs_ok (snd res).
Proof.
  intros res.
  assert (H1 : refs_ok demo_db) by (apply refs_okb_sound; vm_compute; reflexivity).
  assert (H2 : res = (fst res, snd res)) by (vm_compute; reflexivity).
  exact (conj H1 (conj H2 (delete_keeps_refs demo_db 1 10 (fst res) (snd res) H1 H2))).
Defined.

Lemma put_keeps_refs_witness :
  let r := put_req no_fields (Some 2) None in
  let res := run (put_photo 1 10 r) demo_db in
  refs_ok demo_db /\
  (forall u, pu_uuid_rh r = Some u -> exists x, In x (db_rhs demo_db) /\ rh_uuid x = u) /\
  res = (fst res, snd res) /\ refs_ok (snd res).
Proof.
  intros r res.
  assert (H1 : refs_ok demo_db) by (apply refs_okb_sound; vm_compute; reflexivity).
  assert (H2 : forall u, pu_uuid_rh r = Some u -> exists x, In x (db_rhs demo_db) /\ rh_uuid x = u).
  { intros u Hu. injection Hu as <-. exists (mkRH 2 (Some 2) "N2" None true 2).
    split; [simpl; auto|reflexivity]. }
  assert (H3 : res = (fst res, snd res)) by (vm_compute; reflexivity).
  exact (conj H1 (conj H2 (conj H3 (put_keeps_refs demo_db 1 10 r (fst res) (snd res) H1 H2 H3)))).
Defined.

Lemma post_keeps_refs_witness :
  let res := run (post_photo 1 "img" post_req_type) demo_db in
  refs_ok demo_db /\
  (forall u, pr_uuid_rh post_req_type = Some u ->
     exists x, In x (db_rhs demo_db) /\ rh_uuid x = u) /\
  res = (fst res, snd res) /\ refs_ok (snd res).
Proof.
  intros res.
  assert (H1 : refs_ok demo_db) by (apply refs_okb_sound; vm_compute; reflexivity).
  assert (H2 : forall u, pr_uuid_rh post_req_type = Some u ->
     exists x, In x (db_rhs demo_db) /\ rh_uuid x = u) by (intros u Hu; discriminate Hu).
  assert (H3 : res = (fst res, snd res)) by (vm_compute; reflexivity).
  exact (conj H1 (conj H2 (conj H3
    (post_keeps_refs demo_db 1 "img" post_req_type (fst res) (snd res) H1 H2 H3)))).
Defined.

Lemma post_created_or_unchanged_witness :
  let res := run (post_photo 1 "img" post_req_type) demo_db in
  res = (fst res, snd res) /\ status (fst res) = 201 /\
  exists p, body (fst res) = BPhoto p /\ db_photos (snd res) = db_photos demo_db ++ [p] /\
     ~ In (ph_id p) (map ph_id (db_photos demo_db)) /\
     ph_user_id p = 1 /\ ph_image_url p = "img" /\
     ph_taken_at p = or_null (f_taken_at (pr_fields post_req_type)) /\
     ph_shutter_speed p = or_null (f_shutter_speed (pr_fields post_req_type)) /\
     ph_iso p = or_null (f_iso (pr_fields post_req_type)) /\
     ph_aperture p = or_null (f_aperture (pr_fields post_req_type)) /\
     ph_camera_model p = or_null (f_camera_model (pr_fields post_req_type)) /\
     ph_focal_length p = or_null (f_focal_length (pr_fields post_req_type)).
Proof.
  intros res.
  assert (H1 : res = (fst res, snd res)) by (vm_compute; reflexivity).
  assert (H2 : status (fst res) = 201) by (vm_compute; reflexivity).
  exact (conj H1 (conj H2
    (proj2 (post_created_or_unchanged demo_db 1 "img" post_req_type (fst res) (snd res) H1) H2))).
Defined.

Lemma post_not_found_keeps_airport_witness :
  let r := post_req_unknown_reg in
  let res := run (post_photo 1 "img" r) demo_db in
  pr_has_file r = true /\ is_other (pr_airport_code r) = true /\
  pr_airport_icao_code r = Some "kabc" /\
  airport_fields_present (pr_airport_icao_code r) (pr_airport_name r)
    (pr_airport_latitude r) (pr_airport_longitude r) = true /\
  existsb (fun x => String.eqb (ap_icao_code x) (toUpperCase "kabc")) (db_airports demo_db) = false /\
  pr_uuid_rh r = None /\ str_truthy (pr_aircraft_type_id r) = false /\
  pr_registration r = Some "zzz" /\
  rhs_with_registration (toUpperCase "zzz") (db_rhs demo_db) = [] /\
  res = (fst res, snd res) /\
  fst res = registration_not_found /\
  db_airports (snd res) = db_airports demo_db ++
    [mkAirport (toUpperCase "kabc") (unwrap (pr_airport_name r))
       (unwrap (pr_airport_latitude r)) (unwrap (pr_airport_longitude r))] /\
  db_photos (snd res) = db_photos demo_db /\ db_rhs (snd res) = db_rhs demo_db /\
  db_sas (snd res) = db_sas demo_db.
Proof.
  intros r res.
  assert (H1 : pr_has_file r = true) by reflexivity.
  assert (H2 : is_other (pr_airport_code r) = true) by reflexivity.
  assert (H3 : pr_airport_icao_code r = Some "kabc") by reflexivity.
  assert (H4 : airport_fields_present (pr_airport_icao_code r) (pr_airport_name r)
    (pr_airport_latitude r) (pr_airport_longitude r) = true) by reflexivity.
  assert (H5 : existsb (fun x => String.eqb (ap_icao_code x) (toUpperCase "kabc"))
                 (db_airports demo_db) = false) by (vm_compute; reflexivity).
  assert (H6 : pr_uuid_rh r = None) by reflexivity.
  assert (H7 : str_truthy (pr_aircraft_type_id r) = false) by reflexivity.
  assert (H8 : pr_registration r = Some "zzz") by reflexivity.
  assert (H9 : rhs_with_registration (toUpperCase "zzz") (db_rhs demo_db) = [])
    by (vm_compute; reflexivity).
  assert (H10 : res = (fst res, snd res)) by (vm_compute; reflexivity).
  exact (conj H1 (conj H2 (conj H3 (conj H4 (conj H5 (conj H6 (conj H7 (conj H8 (conj H9
    (conj H10 (post_not_found_keeps_airport demo_db 1 "img" r "kabc" "zzz" (fst res) (snd res)
       H1 H2 H3 H4 H5 H6 H7 H8 H9 H10))))))))))).
Defined.

Lemma post_type_without_registration_keeps_aircraft_witness :
  let r := post_req_type_only in
  let res := run (post_photo 1 "img" r) demo_db in
  pr_has_file r = true /\
  pr_uuid_rh r = None /\ str_truthy (pr_aircraft_type_id r) = true /\
  pr_registration r = None /\ res = (fst res, snd res) /\
  ((status (fst res) = 500 /\
    (exists sa, db_sas (snd res) = db_sas demo_db ++ [sa] /\
       sa_icao_type sa = unwrap (pr_aircraft_type_id r) /\
       ~ In (sa_uuid sa) (map sa_uuid (db_sas demo_db))) /\
    db_photos (snd res) = db_photos demo_db /\ db_rhs (snd res) = db_rhs demo_db) \/
   (is_other (pr_airport_code r) = true /\ snd res = demo_db /\
    (fst res = missing_airport_fields \/ status (fst res) = 500))).
Proof.
  intros r res.
  assert (H1 : pr_has_file r = true) by reflexivity.
  assert (H3 : pr_uuid_rh r = None) by reflexivity.
  assert (H4 : str_truthy (pr_aircraft_type_id r) = true) by reflexivity.
  assert (H5 : pr_registration r = None) by reflexivity.
  assert (H6 : res = (fst res, snd res)) by (vm_compute; reflexivity).
  exact (conj H1 (conj H3 (conj H4 (conj H5 (conj H6
    (post_type_without_registration_keeps_aircraft demo_db 1 "img" r (fst res) (snd res)
       H1 H3 H4 H5 H6)))))).
Defined.

Lemma random_small_count_returns_all_witness :
  0 < count_rows (mkFilter 1 "" []) demo_db <= 5 /\
  rr_data (my_photos_random 1 "" [] 7 demo_db) = base_rows (mkFilter 1 "" []) demo_db /\
  rr_offset (my_photos_random 1 "" [] 7 demo_db) = Some 0.
Proof.
  assert (H : 0 < count_rows (mkFilter 1 "" []) demo_db <= 5)
    by (split; [apply Z.ltb_lt|apply Z.leb_le]; vm_compute; reflexivity).
  exact (conj H (random_small_count_returns_all 1 "" [] 7 demo_db H)).
Defined.

(** * Counterexamples *)

(** C4: an update naming a registration that no row matches succeeds and
    keeps the photo's reference. *)
Lemma put_unmatched_registration_succeeds :
  rhs_with_registration (toUpperCase "zzz") (db_rhs demo_db) = [] /\
  fst (run (put_photo 1 10 (put_req no_fields None (Some "zzz"))) demo_db) =
    mkResp 200 (BMessage "Photo updated successfully") /\
  map ph_uuid_rh (db_photos (snd (run (put_photo 1 10 (put_req no_fields None (Some "zzz"))) demo_db))) =
    map ph_uuid_rh (db_photos demo_db).
Proof. vm_compute. repeat split. Qed.

(** C7: a create naming an ICAO code that is already stored answers 500,
    not a conflict, and changes nothing. *)
Lemma post_duplicate_airport_500 :
  existsb (fun x => String.eqb (ap_icao_code x) (toUpperCase "kxyz")) (db_airports demo_db) = true /\
  run (post_photo 1 "img" (post_req_other "kxyz")) demo_db =
    (mkResp 500 (BError (String.append "Failed to insert airport: " (err_message airport_dup))),
     demo_db).
Proof. vm_compute. split; reflexivity. Qed.
